(** * Browser performance metrics: entry draining, span synthesis, finalization

    A shallow embedding of
    [packages/browser-utils/src/metrics/browserMetrics.ts]: the module-level
    session state ([_performanceCursor], [_measurements], [_lcpEntry],
    [_clsEntry]), the web-vital callbacks, [addPerformanceEntries] with its
    helpers, and the callbacks of [startTrackingLongTasks],
    [startTrackingLongAnimationFrames] and [startTrackingInteractions].

    JavaScript numbers are IEEE 754 binary64 values and are modelled by the
    primitive type [float]; JavaScript objects used as dictionaries are finite
    maps with string keys.  A JavaScript string is modelled by the string with
    the same code units, one character per code unit; the strings covered are
    those whose code units are below 256.  The module state is threaded through a small
    state-and-trace monad whose trace records the calls made on the tracing
    layer ([startAndEndSpan], [setMeasurement], [span.setAttribute]). *)

From Stdlib Require Import ZArith Floats Ascii.
From stdpp Require Import base option list strings pretty gmap.

Set Warnings "-inexact-float".

(** ** JavaScript number and string primitives used by the source *)

Module JS.

Definition isNaN (x : float) : bool := negb (x =? x)%float.

(** [ToBoolean] on a number: [+0], [-0] and [NaN] are falsy. *)
Definition truthy (x : float) : bool :=
  negb (x =? 0)%float && negb (isNaN x).

(** [ToBoolean] on an optional number ([undefined] is falsy). *)
Definition truthy_opt (x : option float) : bool :=
  match x with Some v => truthy v | None => false end.

(** [ToBoolean] on an optional string ([undefined] and [''] are falsy). *)
Definition truthy_str (x : option string) : bool :=
  match x with Some s => negb (String.eqb s "") | None => false end.

(** [ToNumber(undefined)] is [NaN]. *)
Definition toNumber (x : option float) : float := default nan x.

(** [Math.max] of two numbers: [NaN] if either is, and [+0] above [-0]. *)
Definition Math_max (x y : float) : float :=
  if isNaN x || isNaN y then nan
  else if (x <? y)%float then y
  else if (y <? x)%float then x
  else if get_sign x then y else x.

(** [a || b] on an optional string and a string. *)
Definition or_else (a : option string) (b : string) : string :=
  match a with
  | Some s => if String.eqb s "" then b else s
  | None => b
  end.

(** [x !== y] on numbers. *)
Definition strict_neq (x y : float) : bool := negb (x =? y)%float.

(** [Array.prototype.slice(begin)]. *)
Definition slice {A} (l : list A) (begin : Z) : list A :=
  let len := Z.of_nat (length l) in
  let k := if (begin <? 0)%Z then Z.max (len + begin) 0 else begin in
  drop (Z.to_nat k) l.

(** [s.includes(sub)]. *)
Definition includes (s sub : string) : bool :=
  bool_decide (is_Some (String.index 0 sub s)).

(** [s.replace(pat, '')] with a string pattern: the first occurrence only. *)
Definition replace_first_empty (s pat : string) : string :=
  match String.index 0 pat s with
  | Some i =>
      String.substring 0 i s +:+
      String.substring (i + String.length pat)
                       (String.length s - (i + String.length pat)) s
  | None => s
  end.

(** [s.split(sep).pop()] for a one-character separator: what follows the
    last separator, or all of [s] when there is none. *)
Fixpoint split_pop_from (sep : ascii) (s cur : string) : string :=
  match s with
  | EmptyString => cur
  | String a r =>
      if Ascii.eqb a sep then split_pop_from sep r r
      else split_pop_from sep r cur
  end.
Definition split_pop (sep : ascii) (s : string) : string :=
  split_pop_from sep s s.

(** [s.trim()].  Of the white space and line terminator code units that
    [trim] removes, those below 256 are U+0009 to U+000D, U+0020 and
    U+00A0. *)
Definition is_space (a : ascii) : bool :=
  let n := nat_of_ascii a in
  (n =? 32)%nat || (n =? 160)%nat || ((9 <=? n)%nat && (n <=? 13)%nat).
Fixpoint trimStart (s : string) : string :=
  match s with
  | String a r => if is_space a then trimStart r else s
  | EmptyString => EmptyString
  end.
Definition trim (s : string) : string :=
  String.rev (trimStart (String.rev (trimStart s))).

(** [s.startsWith(p)]. *)
Fixpoint startsWith (s p : string) {struct p} : bool :=
  match p with
  | EmptyString => true
  | String a p' =>
      match s with
      | String b s' => Ascii.eqb a b && startsWith s' p'
      | EmptyString => false
      end
  end.

(** [s.slice(0, n)]: the first [n] code units. *)
Definition slice_prefix (n : nat) (s : string) : string :=
  String.substring 0 n s.

End JS.

(** ** Span options

    Attribute values are strings, numbers or booleans. *)

Inductive AttrValue :=
| AStr (s : string)
| ANum (x : float)
| ABool (b : bool).

(** The options handed to [startAndEndSpan] and [startInactiveSpan]. *)
Record SpanOptions := {
  span_name : string;
  span_op : string;
  span_attributes : gmap string AttrValue
}.

(** ** Collaborators outside this module

    DOM elements, the helpers imported from [@sentry/utils] and
    [@sentry/core], and [isMeasurementValue] of [./utils], whose body is
    outside the file embedded here, are parameters of the development. *)

Class Collaborators := {
  Element : Type;
  (** [htmlTreeAsString(elem)] *)
  htmlTreeAsString : option Element -> string;
  (** [getComponentName(elem)] *)
  getComponentName : option Element -> option string;
  (** [parseUrl(url)], of which [protocol] and [host] are read *)
  parseUrl : string -> option string * option string;
  (** [String(n)] and a number inside a template literal *)
  numberToString : float -> string;
  (** whether [startInactiveSpan({ startTime, ...options })] hands back a span *)
  startInactiveSpan : SpanOptions -> float -> bool;
  (** [isMeasurementValue(value)], on a value that may be [undefined] *)
  isMeasurementValue : option float -> bool
}.

(** Modelled from the spec: [msToSec], defined in [./utils] outside the file
    embedded here; the spec converts a value of 50 ms to 0.05 s. *)
Definition msToSec (time : float) : float := (time / 1000)%float.

(** The attribute key that [@sentry/core] exports under this name. *)
Definition SEMANTIC_ATTRIBUTE_SENTRY_ORIGIN : string := "sentry.origin".
Definition MAX_INT_AS_BYTES : float := 2147483647%float.

(** ** Data model *)

Section BrowserMetrics.
Context `{Collaborators}.

(** A performance entry as the source reads it, a [Record<string, any>]:
    the four properties every entry has, and the further numeric and string
    properties looked up by key. *)
Record PerformanceEntry := {
  entryType : string;
  name : string;
  startTime : float;
  duration : float;
  numProps : gmap string float;
  strProps : gmap string string
}.

(** [PerformanceEventTiming], delivered to the interaction handler. *)
Record PerformanceEventTiming := {
  event_name : string;
  event_startTime : float;
  event_duration : float;
  event_target : option Element
}.

(** The navigation entry as [getNavigationEntry()] returns it. *)
Record PerformanceNavigationTiming := {
  requestStart : float;
  responseStart : float
}.

Record LargestContentfulPaint := {
  lcp_element : option Element;
  lcp_id : string;
  lcp_url : string;
  lcp_size : float
}.

(** A [LayoutShift]: its [sources], each with a [node]. *)
Record LayoutShift := {
  sources : option (list (option Element))
}.

(** What a web-vital callback receives. *)
Record Metric (E : Type) := {
  metric_value : float;
  metric_entries : list E
}.
Arguments metric_value {E} _.
Arguments metric_entries {E} _.

Record Measurement := {
  value : float;
  unit_ : string
}.

(** [spanToJSON(span)], of which [op] and [start_timestamp] are read. *)
Record SpanJSON := {
  op : option string;
  start_timestamp : option float
}.

Record AddPerformanceEntriesOptions := {
  recordClsOnPageloadSpan : bool
}.

Record NetworkInformation := {
  effectiveType : option string;
  connection_type : option string;
  rtt : option float
}.

Record Navigator := {
  connection : option NetworkInformation;
  deviceMemory : option float;
  hardwareConcurrency : option float
}.

(** The host environment at the time of a call. *)
Record Host := {
  (** [performance.getEntries()]; [None] without a Performance API *)
  performance_getEntries : option (list PerformanceEntry);
  browserPerformanceTimeOrigin : option float;
  getNavigationEntry : option PerformanceNavigationTiming;
  getActivationStart : float;
  (** [getVisibilityWatcher().firstHiddenTime] *)
  firstHiddenTime : float;
  (** [WINDOW.navigator] *)
  navigator : option Navigator;
  (** [WINDOW.location.origin] *)
  location_origin : string
}.

(** The module-level variables. *)
Record Session := {
  _performanceCursor : Z;
  _measurements : gmap string Measurement;
  _lcpEntry : option LargestContentfulPaint;
  _clsEntry : option LayoutShift
}.

Definition initialSession : Session :=
  {| _performanceCursor := 0; _measurements := ∅;
     _lcpEntry := None; _clsEntry := None |}.

(** The calls made on the tracing layer, each recorded with its arguments:
    [startAndEndSpan], [setMeasurement], [span.setAttribute],
    [startInactiveSpan] and [span.end]. *)
Inductive Effect :=
| StartAndEndSpan (startTimestamp endTimestamp : float) (ctx : SpanOptions)
| SetMeasurement (name : string) (value : float) (unit_ : string)
| SetAttribute (key : string) (value : AttrValue)
| StartInactiveSpan (ctx : SpanOptions) (startTime : float)
| SpanEnd (ctx : SpanOptions) (endTimestamp : float).


(** ** The state-and-trace monad *)

Definition M (A : Type) : Type := Session -> A * Session * list Effect.

#[global] Instance M_ret : MRet M := fun _ a s => (a, s, []).
#[global] Instance M_bind : MBind M := fun _ _ f m s =>
  let '(a, s1, w1) := m s in
  let '(b, s2, w2) := f a s1 in
  (b, s2, w1 ++ w2).

Definition emit (e : Effect) : M unit := fun s => (tt, s, [e]).
Definition gets {A} (f : Session -> A) : M A := fun s => (f s, s, []).
Definition modify (f : Session -> Session) : M unit := fun s => (tt, f s, []).
Definition when (b : bool) (m : M unit) : M unit := if b then m else mret tt.

Fixpoint forEach {A} (l : list A) (f : A -> M unit) : M unit :=
  match l with
  | [] => mret tt
  | x :: r => f x ;; forEach r f
  end.

Definition valueOf {A} (r : A * Session * list Effect) : A := r.1.1.
Definition stateOf {A} (r : A * Session * list Effect) : Session := r.1.2.
Definition effectsOf {A} (r : A * Session * list Effect) : list Effect := r.2.

Definition set_performanceCursor (c : Z) (s : Session) : Session :=
  {| _performanceCursor := c; _measurements := _measurements s;
     _lcpEntry := _lcpEntry s; _clsEntry := _clsEntry s |}.
Definition set_measurements (m : gmap string Measurement) (s : Session) : Session :=
  {| _performanceCursor := _performanceCursor s; _measurements := m;
     _lcpEntry := _lcpEntry s; _clsEntry := _clsEntry s |}.
Definition set_lcpEntry (e : option LargestContentfulPaint) (s : Session) : Session :=
  {| _performanceCursor := _performanceCursor s; _measurements := _measurements s;
     _lcpEntry := e; _clsEntry := _clsEntry s |}.
Definition set_clsEntry (e : option LayoutShift) (s : Session) : Session :=
  {| _performanceCursor := _performanceCursor s; _measurements := _measurements s;
     _lcpEntry := _lcpEntry s; _clsEntry := e |}.

(** [_measurements[key] = m] and [delete _measurements[key]]. *)
Definition setMeasurementEntry (key : string) (m : Measurement) : M unit :=
  modify (fun s => set_measurements (<[key := m]> (_measurements s)) s).
Definition deleteMeasurementEntry (key : string) : M unit :=
  modify (fun s => set_measurements (delete key (_measurements s)) s).

(** ** Web-vital callbacks *)

(** [_trackCLS]: the callback handed to [addClsInstrumentationHandler]. *)
Definition _trackCLS (metric : Metric LayoutShift) : M unit :=
  match last (metric_entries metric) with
  | None => mret tt
  | Some entry =>
      setMeasurementEntry "cls" {| value := metric_value metric; unit_ := "" |} ;;
      modify (set_clsEntry (Some entry))
  end.

(** [_trackLCP]: the callback handed to [addLcpInstrumentationHandler]. *)
Definition _trackLCP (metric : Metric LargestContentfulPaint) : M unit :=
  match last (metric_entries metric) with
  | None => mret tt
  | Some entry =>
      setMeasurementEntry "lcp" {| value := metric_value metric; unit_ := "millisecond" |} ;;
      modify (set_lcpEntry (Some entry))
  end.

(** [_trackFID]: the callback handed to [addFidInstrumentationHandler]; the
    entries are read for their [startTime]. *)
Definition _trackFID (host : Host) (metric : Metric PerformanceEntry) : M unit :=
  match last (metric_entries metric) with
  | None => mret tt
  | Some entry =>
      let timeOrigin := msToSec (JS.toNumber (browserPerformanceTimeOrigin host)) in
      let startTime := msToSec (startTime entry) in
      setMeasurementEntry "fid" {| value := metric_value metric; unit_ := "millisecond" |} ;;
      setMeasurementEntry "mark.fid" {| value := (timeOrigin + startTime)%float; unit_ := "second" |}
  end.

(** [_trackTtfb]: the callback handed to [addTtfbInstrumentationHandler]. *)
Definition _trackTtfb (metric : Metric PerformanceEntry) : M unit :=
  match last (metric_entries metric) with
  | None => mret tt
  | Some _ =>
      setMeasurementEntry "ttfb" {| value := metric_value metric; unit_ := "millisecond" |}
  end.

(** ** Span synthesis *)

(** Modelled from the spec: [startAndEndSpan], defined in [./utils] outside the
    file embedded here, creates a synthetic span that is already ended, with
    its name, op, start and end timestamps and attributes. *)
Definition startAndEndSpan (startTimestamp endTimestamp : float) (ctx : SpanOptions) : M unit :=
  emit (StartAndEndSpan startTimestamp endTimestamp ctx).

(** [span.setAttribute(key, value)]. *)
Definition setAttribute (key : string) (v : AttrValue) : M unit :=
  emit (SetAttribute key v).

(** [_addMeasureSpans]: create measure related spans. *)
Definition _addMeasureSpans (host : Host) (entry : PerformanceEntry)
    (startTime duration timeOrigin : float) : M float :=
  let navEntry := getNavigationEntry host in
  let requestTime :=
    msToSec (match navEntry with Some n => requestStart n | None => 0%float end) in
  let measureStartTimestamp := (timeOrigin + JS.Math_max startTime requestTime)%float in
  let startTimeStamp := (timeOrigin + startTime)%float in
  let measureEndTimestamp := (startTimeStamp + duration)%float in
  let attributes : gmap string AttrValue :=
    {[ SEMANTIC_ATTRIBUTE_SENTRY_ORIGIN := AStr "auto.resource.browser.metrics" ]} in
  let attributes :=
    if JS.strict_neq measureStartTimestamp startTimeStamp then
      <["sentry.browser.measure_start_time" := ANum measureStartTimestamp]>
        (<["sentry.browser.measure_happened_before_request" := ABool true]> attributes)
    else attributes in
  startAndEndSpan measureStartTimestamp measureEndTimestamp
    {| span_name := name entry; span_op := entryType entry;
       span_attributes := attributes |} ;;
  mret measureStartTimestamp.

(** [_addPerformanceNavigationTiming]: create performance navigation related
    spans; [name'] and [eventEnd] are the optional arguments. *)
Definition _addPerformanceNavigationTiming (entry : PerformanceEntry)
    (event : string) (timeOrigin : float) (name' eventEnd : option string) : M unit :=
  let end_ :=
    if JS.truthy_str eventEnd then numProps entry !! default "" eventEnd
    else numProps entry !! (event +:+ "End") in
  let start := numProps entry !! (event +:+ "Start") in
  if negb (JS.truthy_opt start) || negb (JS.truthy_opt end_) then mret tt
  else
    startAndEndSpan (timeOrigin + msToSec (JS.toNumber start))%float
                    (timeOrigin + msToSec (JS.toNumber end_))%float
      {| span_op := "browser." +:+ JS.or_else name' event;
         span_name := name entry;
         span_attributes :=
           {[ SEMANTIC_ATTRIBUTE_SENTRY_ORIGIN := AStr "auto.ui.browser.metrics" ]} |}.

(** [_addRequest]: create request and response related spans. *)
Definition _addRequest (entry : PerformanceEntry) (timeOrigin : float) : M unit :=
  let requestStartTimestamp :=
    (timeOrigin + msToSec (JS.toNumber (numProps entry !! "requestStart")))%float in
  let responseEndTimestamp :=
    (timeOrigin + msToSec (JS.toNumber (numProps entry !! "responseEnd")))%float in
  let responseStartTimestamp :=
    (timeOrigin + msToSec (JS.toNumber (numProps entry !! "responseStart")))%float in
  when (JS.truthy_opt (numProps entry !! "responseEnd"))
    (startAndEndSpan requestStartTimestamp responseEndTimestamp
       {| span_op := "browser.request"; span_name := name entry;
          span_attributes :=
            {[ SEMANTIC_ATTRIBUTE_SENTRY_ORIGIN := AStr "auto.ui.browser.metrics" ]} |} ;;
     startAndEndSpan responseStartTimestamp responseEndTimestamp
       {| span_op := "browser.response"; span_name := name entry;
          span_attributes :=
            {[ SEMANTIC_ATTRIBUTE_SENTRY_ORIGIN := AStr "auto.ui.browser.metrics" ]} |}).

(** [_addNavigationSpans]: instrument navigation entries. *)
Definition _addNavigationSpans (entry : PerformanceEntry) (timeOrigin : float) : M unit :=
  forEach ["unloadEvent"; "redirect"; "domContentLoadedEvent"; "loadEvent"; "connect"]
    (fun event => _addPerformanceNavigationTiming entry event timeOrigin None None) ;;
  _addPerformanceNavigationTiming entry "secureConnection" timeOrigin
    (Some "TLS/SSL") (Some "connectEnd") ;;
  _addPerformanceNavigationTiming entry "fetch" timeOrigin
    (Some "cache") (Some "domainLookupStart") ;;
  _addPerformanceNavigationTiming entry "domainLookup" timeOrigin (Some "DNS") None ;;
  _addRequest entry timeOrigin.

(** [setResourceEntrySizeData]; the attributes object it mutates is returned. *)
Definition setResourceEntrySizeData (attributes : gmap string AttrValue)
    (entry : PerformanceEntry) (key dataKey : string) : gmap string AttrValue :=
  match numProps entry !! key with
  | Some entryVal =>
      if (entryVal <? MAX_INT_AS_BYTES)%float then <[dataKey := ANum entryVal]> attributes
      else attributes
  | None => attributes
  end.

(** [_addResourceSpans]: create resource-related spans. *)
Definition _addResourceSpans (host : Host) (entry : PerformanceEntry)
    (resourceUrl : string) (startTime duration timeOrigin : float) : M unit :=
  let initiatorType := strProps entry !! "initiatorType" in
  if bool_decide (initiatorType = Some "xmlhttprequest")
     || bool_decide (initiatorType = Some "fetch")
  then mret tt
  else
    let parsedUrl := parseUrl resourceUrl in
    let attributes : gmap string AttrValue :=
      {[ SEMANTIC_ATTRIBUTE_SENTRY_ORIGIN := AStr "auto.resource.browser.metrics" ]} in
    let attributes :=
      setResourceEntrySizeData attributes entry "transferSize" "http.response_transfer_size" in
    let attributes :=
      setResourceEntrySizeData attributes entry "encodedBodySize" "http.response_content_length" in
    let attributes :=
      setResourceEntrySizeData attributes entry "decodedBodySize"
        "http.decoded_response_content_length" in
    let attributes :=
      match strProps entry !! "deliveryType" with
      | Some deliveryType =>
          <["http.response_delivery_type" :=
              AStr (JS.or_else (Some deliveryType) "default")]> attributes
      | None => attributes
      end in
    let attributes :=
      match strProps entry !! "renderBlockingStatus" with
      | Some status => <["resource.render_blocking_status" := AStr status]> attributes
      | None => attributes
      end in
    let attributes :=
      if JS.truthy_str parsedUrl.1
      then <["url.scheme" := AStr (JS.split_pop ":" (default "" parsedUrl.1))]> attributes
      else attributes in
    let attributes :=
      if JS.truthy_str parsedUrl.2
      then <["server.address" := AStr (default "" parsedUrl.2)]> attributes
      else attributes in
    let attributes :=
      <["url.same_origin" := ABool (JS.includes resourceUrl (location_origin host))]>
        attributes in
    let startTimestamp := (timeOrigin + startTime)%float in
    let endTimestamp := (startTimestamp + duration)%float in
    startAndEndSpan startTimestamp endTimestamp
      {| span_name := JS.replace_first_empty resourceUrl (location_origin host);
         span_op :=
           if JS.truthy_str initiatorType
           then "resource." +:+ default "" initiatorType
           else "resource.other";
         span_attributes := attributes |}.

(** ** Finalization helpers *)

(** [_trackNavigator]: capture the information of the user agent. *)
Definition _trackNavigator (host : Host) : M unit :=
  match navigator host with
  | None => mret tt
  | Some nav =>
      match connection nav with
      | Some conn =>
          when (JS.truthy_str (effectiveType conn))
            (setAttribute "effectiveConnectionType" (AStr (default "" (effectiveType conn)))) ;;
          when (JS.truthy_str (connection_type conn))
            (setAttribute "connectionType" (AStr (default "" (connection_type conn)))) ;;
          when (isMeasurementValue (rtt conn))
            (setMeasurementEntry "connection.rtt"
               {| value := JS.toNumber (rtt conn); unit_ := "millisecond" |})
      | None => mret tt
      end ;;
      when (isMeasurementValue (deviceMemory nav))
        (setAttribute "deviceMemory"
           (AStr (numberToString (JS.toNumber (deviceMemory nav)) +:+ " GB"))) ;;
      when (isMeasurementValue (hardwareConcurrency nav))
        (setAttribute "hardwareConcurrency"
           (AStr (numberToString (JS.toNumber (hardwareConcurrency nav)))))
  end.

(** [_setWebVitalAttributes]: add LCP / CLS data to the span. *)
Definition _setWebVitalAttributes : M unit :=
  lcpEntry ← gets _lcpEntry ;
  match lcpEntry with
  | Some lcp =>
      when (bool_decide (is_Some (lcp_element lcp)))
        (setAttribute "lcp.element" (AStr (htmlTreeAsString (lcp_element lcp)))) ;;
      when (negb (String.eqb (lcp_id lcp) ""))
        (setAttribute "lcp.id" (AStr (lcp_id lcp))) ;;
      when (negb (String.eqb (lcp_url lcp) ""))
        (setAttribute "lcp.url" (AStr (JS.slice_prefix 200 (JS.trim (lcp_url lcp))))) ;;
      setAttribute "lcp.size" (ANum (lcp_size lcp))
  | None => mret tt
  end ;;
  clsEntry ← gets _clsEntry ;
  match clsEntry with
  | Some cls =>
      match sources cls with
      | Some srcs =>
          forEach (imap (fun index source => (index, source)) srcs)
            (fun '(index, source) =>
               setAttribute ("cls.source." +:+ pretty (index + 1)%nat)
                            (AStr (htmlTreeAsString source)))
      | None => mret tt
      end
  | None => mret tt
  end.

(** [_addTtfbRequestTimeToMeasurements]: add ttfb request time information to
    the measurements. *)
Definition _addTtfbRequestTimeToMeasurements (host : Host) : M unit :=
  match getNavigationEntry host with
  | None => mret tt
  | Some navEntry =>
      when (requestStart navEntry <=? responseStart navEntry)%float
        (setMeasurementEntry "ttfb.requestTime"
           {| value := (responseStart navEntry - requestStart navEntry)%float;
              unit_ := "millisecond" |})
  end.

(** ** [addPerformanceEntries] *)

(** The body of the [forEach] over the new entries. *)
Definition processEntry (host : Host) (span : SpanJSON) (timeOrigin : float)
    (entry : PerformanceEntry) : M unit :=
  let startTime' := msToSec (startTime entry) in
  let duration' := msToSec (JS.Math_max 0 (duration entry)) in
  if bool_decide (op span = Some "navigation")
     && JS.truthy_opt (start_timestamp span)
     && (timeOrigin + startTime' <? JS.toNumber (start_timestamp span))%float
  then mret tt
  else if bool_decide (entryType entry = "navigation") then
    _addNavigationSpans entry timeOrigin
  else if bool_decide (entryType entry = "mark")
          || bool_decide (entryType entry = "paint")
          || bool_decide (entryType entry = "measure") then
    _addMeasureSpans host entry startTime' duration' timeOrigin ;;
    let shouldRecord := (startTime entry <? firstHiddenTime host)%float in
    when (bool_decide (name entry = "first-paint") && shouldRecord)
      (setMeasurementEntry "fp" {| value := startTime entry; unit_ := "millisecond" |}) ;;
    when (bool_decide (name entry = "first-contentful-paint") && shouldRecord)
      (setMeasurementEntry "fcp" {| value := startTime entry; unit_ := "millisecond" |})
  else if bool_decide (entryType entry = "resource") then
    _addResourceSpans host entry (name entry) startTime' duration' timeOrigin
  else mret tt.

(** The drain: [performanceEntries.slice(_performanceCursor).forEach(...)]
    followed by the cursor update. *)
Definition drainEntries (host : Host) (span : SpanJSON) (timeOrigin : float)
    (performanceEntries : list PerformanceEntry) : M unit :=
  cursor ← gets _performanceCursor ;
  forEach (JS.slice performanceEntries cursor) (processEntry host span timeOrigin) ;;
  modify (set_performanceCursor (Z.max (Z.of_nat (length performanceEntries) - 1) 0)).

(** The three inline steps of the pageload block that work on the
    accumulator.  First, the span for FID: when both [mark.fid] and [fid] are
    present the span is created and [mark.fid] is deleted. *)
Definition createFidSpan : M unit :=
  measurements ← gets _measurements ;
  match measurements !! "mark.fid", measurements !! "fid" with
  | Some fidMark, Some fid =>
      startAndEndSpan (value fidMark) (value fidMark + msToSec (value fid))%float
        {| span_name := "first input delay"; span_op := "ui.action";
           span_attributes :=
             {[ SEMANTIC_ATTRIBUTE_SENTRY_ORIGIN := AStr "auto.ui.browser.metrics" ]} |} ;;
      deleteMeasurementEntry "mark.fid"
  | _, _ => mret tt
  end.

(** Second, [if (!('fcp' in _measurements) || !options.recordClsOnPageloadSpan)
    delete _measurements.cls]. *)
Definition gateClsMeasurement (options : AddPerformanceEntriesOptions) : M unit :=
  measurements ← gets _measurements ;
  when (negb (bool_decide (is_Some (measurements !! "fcp")))
        || negb (recordClsOnPageloadSpan options))
    (deleteMeasurementEntry "cls").

(** Third, [Object.entries(_measurements).forEach(... setMeasurement ...)];
    the entries are listed in the order of the finite map, not in the order
    of insertion. *)
Definition writeMeasurements : M unit :=
  measurements ← gets _measurements ;
  forEach (map_to_list measurements)
    (fun '(measurementName, measurement) =>
       emit (SetMeasurement measurementName (value measurement) (unit_ measurement))).

(** The block run when [op === 'pageload']. *)
Definition finalizePageload (host : Host) (options : AddPerformanceEntriesOptions)
    (timeOrigin : float) : M unit :=
  _addTtfbRequestTimeToMeasurements host ;;
  createFidSpan ;;
  gateClsMeasurement options ;;
  writeMeasurements ;;
  setAttribute "performance.timeOrigin" (ANum timeOrigin) ;;
  setAttribute "performance.activationStart" (ANum (getActivationStart host)) ;;
  _setWebVitalAttributes.

(** [addPerformanceEntries]: add performance related spans to a transaction. *)
Definition addPerformanceEntries (host : Host) (span : SpanJSON)
    (options : AddPerformanceEntriesOptions) : M unit :=
  match performance_getEntries host with
  | None => mret tt
  | Some performanceEntries =>
      if negb (JS.truthy_opt (browserPerformanceTimeOrigin host)) then mret tt
      else
        let timeOrigin := msToSec (JS.toNumber (browserPerformanceTimeOrigin host)) in
        drainEntries host span timeOrigin performanceEntries ;;
        _trackNavigator host ;;
        when (bool_decide (op span = Some "pageload"))
          (finalizePageload host options timeOrigin) ;;
        modify (set_lcpEntry None) ;;
        modify (set_clsEntry None) ;;
        modify (set_measurements ∅)
  end.

(** ** The interaction handler *)

(** The callback that [startTrackingInteractions] hands to
    [addPerformanceInstrumentationHandler('event', ...)]; [getActiveSpan] is the
    result of [getActiveSpan()] when the batch is delivered. *)
Definition interactionHandler (host : Host) (getActiveSpan : option SpanJSON)
    (entries : list PerformanceEventTiming) : M unit :=
  match getActiveSpan with
  | None => mret tt
  | Some _ =>
      forEach entries (fun entry =>
        if bool_decide (event_name entry = "click") then
          let startTime :=
            msToSec (JS.toNumber (browserPerformanceTimeOrigin host)
                     + event_startTime entry)%float in
          let duration := msToSec (event_duration entry) in
          let attributes : gmap string AttrValue :=
            {[ SEMANTIC_ATTRIBUTE_SENTRY_ORIGIN := AStr "auto.ui.browser.metrics" ]} in
          let componentName := getComponentName (event_target entry) in
          let attributes :=
            if JS.truthy_str componentName
            then <["ui.component_name" := AStr (default "" componentName)]> attributes
            else attributes in
          let spanOptions :=
            {| span_name := htmlTreeAsString (event_target entry);
               span_op := "ui.interaction." +:+ event_name entry;
               span_attributes := attributes |} in
          emit (StartInactiveSpan spanOptions startTime) ;;
          when (startInactiveSpan spanOptions startTime)
            (emit (SpanEnd spanOptions (startTime + duration)%float))
        else mret tt)
  end.

(** ** Observations on a run, used to state the properties *)

(** The host passes the gatekeeper of [addPerformanceEntries]: the Performance
    API with its entry log and the time origin are available. *)
Definition available (host : Host) (entries : list PerformanceEntry) : Prop :=
  performance_getEntries host = Some entries
  ∧ JS.truthy_opt (browserPerformanceTimeOrigin host) = true.

(** [msToSec(browserPerformanceTimeOrigin)]. *)
Definition timeOriginOf (host : Host) : float :=
  msToSec (JS.toNumber (browserPerformanceTimeOrigin host)).

(** The session once the new entries have been classified, which is when the
    code after the [forEach] starts. *)
Definition drained (host : Host) (span : SpanJSON) (entries : list PerformanceEntry)
    (s : Session) : Session :=
  stateOf (drainEntries host span (timeOriginOf host) entries s).

(** [requestTime] of [_addMeasureSpans]: the navigation entry's [requestStart]
    in seconds, 0 without a navigation entry. *)
Definition requestTimeOf (host : Host) : float :=
  msToSec (match getNavigationEntry host with
           | Some n => requestStart n
           | None => 0%float
           end).

(** A computation keeps a projection of the session. *)
Definition preserves {B} (proj : Session → B) {A} (m : M A) : Prop :=
  ∀ s, proj (stateOf (m s)) = proj s.

(** Every call that a computation makes on the tracing layer satisfies [P]. *)
Definition emitsOnly (P : Effect → Prop) {A} (m : M A) : Prop :=
  ∀ s, Forall P (effectsOf (m s)).

(** A span synthesized from a performance entry: its op is the entry type or
    starts with [browser.] or [resource.], and is not [ui.action]. *)
Definition entrySpan (e : Effect) : Prop :=
  match e with
  | StartAndEndSpan _ _ ctx => span_op ctx ≠ "ui.action"
  | _ => False
  end.

(** The attributes that [_trackNavigator] sets. *)
Definition navigatorAttribute (e : Effect) : Prop :=
  match e with
  | SetAttribute k _ =>
      k ∈ ["effectiveConnectionType"; "connectionType"; "deviceMemory"; "hardwareConcurrency"]
  | _ => False
  end.

(** The attributes that [_setWebVitalAttributes] sets. *)
Definition webVitalAttribute (e : Effect) : Prop :=
  match e with
  | SetAttribute k _ => JS.startsWith k "lcp." || JS.startsWith k "cls.source." = true
  | _ => False
  end.

(** The derived first-input-delay span is the one created with op [ui.action]. *)
Definition isUiActionSpan (e : Effect) : bool :=
  match e with
  | StartAndEndSpan _ _ ctx => bool_decide (span_op ctx = "ui.action")
  | _ => false
  end.


(** The spans of a trace as (start, end, name, op), the value that each span
    has for an attribute, and the measurement writes of a trace as
    (name, value, unit). *)
Definition spansOf (w : list Effect) : list (float * float * string * string) :=
  omap (λ e, match e with
             | StartAndEndSpan a b ctx => Some (a, b, span_name ctx, span_op ctx)
             | _ => None
             end) w.

Definition spanAttributesOf (key : string) (w : list Effect) : list (option AttrValue) :=
  omap (λ e, match e with
             | StartAndEndSpan _ _ ctx => Some (span_attributes ctx !! key)
             | _ => None
             end) w.

Definition measurementsOf (w : list Effect) : list (string * float * string) :=
  omap (λ e, match e with
             | SetMeasurement k v u => Some (k, v, u)
             | _ => None
             end) w.

(** The accumulator after [_trackNavigator]. *)
Definition withConnectionRtt (host : Host) (ms : gmap string Measurement) :
    gmap string Measurement :=
  match navigator host with
  | Some nav =>
      match connection nav with
      | Some conn =>
          if isMeasurementValue (rtt conn)
          then <["connection.rtt" :=
                   {| value := JS.toNumber (rtt conn); unit_ := "millisecond" |}]> ms
          else ms
      | None => ms
      end
  | None => ms
  end.

(** The accumulator after [_addTtfbRequestTimeToMeasurements]. *)
Definition withTtfbRequestTime (host : Host) (ms : gmap string Measurement) :
    gmap string Measurement :=
  match getNavigationEntry host with
  | Some navEntry =>
      if (requestStart navEntry <=? responseStart navEntry)%float
      then <["ttfb.requestTime" :=
               {| value := (responseStart navEntry - requestStart navEntry)%float;
                  unit_ := "millisecond" |}]> ms
      else ms
  | None => ms
  end.

(** The span that [createFidSpan] creates on an accumulator. *)
Definition fidSpan (ms : gmap string Measurement) : list Effect :=
  match ms !! "mark.fid", ms !! "fid" with
  | Some fidMark, Some fid =>
      [StartAndEndSpan (value fidMark) (value fidMark + msToSec (value fid))%float
         {| span_name := "first input delay"; span_op := "ui.action";
            span_attributes :=
              {[ SEMANTIC_ATTRIBUTE_SENTRY_ORIGIN := AStr "auto.ui.browser.metrics" ]} |}]
  | _, _ => []
  end.

(** The accumulator after [createFidSpan]. *)
Definition withoutFidMark (ms : gmap string Measurement) : gmap string Measurement :=
  match ms !! "mark.fid", ms !! "fid" with
  | Some _, Some _ => delete "mark.fid" ms
  | _, _ => ms
  end.

(** The accumulator after [gateClsMeasurement]. *)
Definition gateCls (options : AddPerformanceEntriesOptions)
    (ms : gmap string Measurement) : gmap string Measurement :=
  if negb (bool_decide (is_Some (ms !! "fcp"))) || negb (recordClsOnPageloadSpan options)
  then delete "cls" ms else ms.

(** The accumulator that [writeMeasurements] writes to the span. *)
Definition writtenMeasurements (host : Host) (options : AddPerformanceEntriesOptions)
    (ms : gmap string Measurement) : gmap string Measurement :=
  gateCls options (withoutFidMark (withTtfbRequestTime host ms)).

(** The call [setMeasurement(name, value, unit)] for an entry. *)
Definition writeMeasurement (kv : string * Measurement) : Effect :=
  SetMeasurement kv.1 (value kv.2) (unit_ kv.2).

(** ** Long tasks and long animation frames *)

(** The callback that [startTrackingLongTasks] hands to
    [addPerformanceInstrumentationHandler('longtask', ...)]. *)
Definition longTaskHandler (host : Host) (getActiveSpan : option SpanJSON)
    (entries : list PerformanceEntry) : M unit :=
  match getActiveSpan with
  | None => mret tt
  | Some _ =>
      forEach entries (fun entry =>
        let startTime :=
          msToSec (JS.toNumber (browserPerformanceTimeOrigin host) + startTime entry)%float in
        let duration := msToSec (duration entry) in
        let spanOptions :=
          {| span_name := "Main UI thread blocked"; span_op := "ui.long-task";
             span_attributes :=
               {[ SEMANTIC_ATTRIBUTE_SENTRY_ORIGIN := AStr "auto.ui.browser.metrics" ]} |} in
        emit (StartInactiveSpan spanOptions startTime) ;;
        when (startInactiveSpan spanOptions startTime)
          (emit (SpanEnd spanOptions (startTime + duration)%float)))
  end.

(** A script of a long animation frame, with the properties that the observer
    reads. *)
Record PerformanceScriptTiming := {
  invoker : string;
  invokerType : string;
  sourceURL : string;
  sourceFunctionName : string;
  sourceCharPosition : float
}.

Record PerformanceLongAnimationFrameTiming := {
  loaf_startTime : float;
  loaf_duration : float;
  scripts : list PerformanceScriptTiming
}.

(** The callback of the [PerformanceObserver] that
    [startTrackingLongAnimationFrames] creates; [entries] is
    [list.getEntries()]. *)
Definition longAnimationFrameHandler (host : Host) (getActiveSpan : option SpanJSON)
    (entries : list PerformanceLongAnimationFrameTiming) : M unit :=
  match getActiveSpan with
  | None => mret tt
  | Some _ =>
      forEach entries (fun entry =>
        match head (scripts entry) with
        | None => mret tt
        | Some initialScript =>
            let startTime :=
              msToSec (JS.toNumber (browserPerformanceTimeOrigin host)
                       + loaf_startTime entry)%float in
            let duration := msToSec (loaf_duration entry) in
            let attributes : gmap string AttrValue :=
              {[ SEMANTIC_ATTRIBUTE_SENTRY_ORIGIN := AStr "auto.ui.browser.metrics" ]} in
            let attributes :=
              <["browser.script.invoker" := AStr (invoker initialScript)]> attributes in
            let attributes :=
              <["browser.script.invoker_type" := AStr (invokerType initialScript)]>
                attributes in
            let attributes :=
              if negb (String.eqb (sourceURL initialScript) "")
              then <["code.filepath" := AStr (sourceURL initialScript)]> attributes
              else attributes in
            let attributes :=
              if negb (String.eqb (sourceFunctionName initialScript) "")
              then <["code.function" := AStr (sourceFunctionName initialScript)]> attributes
              else attributes in
            let attributes :=
              if JS.strict_neq (sourceCharPosition initialScript) (-1)
              then <["browser.script.source_char_position" :=
                       ANum (sourceCharPosition initialScript)]> attributes
              else attributes in
            let spanOptions :=
              {| span_name := "Main UI thread blocked"; span_op := "ui.long-animation-frame";
                 span_attributes := attributes |} in
            emit (StartInactiveSpan spanOptions startTime) ;;
            when (startInactiveSpan spanOptions startTime)
              (emit (SpanEnd spanOptions (startTime + duration)%float))
        end)
  end.

(** ** Sessions between calls *)

(** The sessions that the module can be in between calls: the initial one,
    and those that a web-vital callback or [addPerformanceEntries] leaves. *)
Inductive reachable : Session -> Prop :=
| reachable_initial : reachable initialSession
| reachable_cls s metric :
    reachable s -> reachable (stateOf (_trackCLS metric s))
| reachable_lcp s metric :
    reachable s -> reachable (stateOf (_trackLCP metric s))
| reachable_fid s host metric :
    reachable s -> reachable (stateOf (_trackFID host metric s))
| reachable_ttfb s metric :
    reachable s -> reachable (stateOf (_trackTtfb metric s))
| reachable_addPerformanceEntries s host span options :
    reachable s -> reachable (stateOf (addPerformanceEntries host span options s)).

(** What holds of the accumulator and the retained entries between calls. *)
Definition consistent (s : Session) : Prop :=
  (is_Some (_measurements s !! "fid") <-> is_Some (_measurements s !! "mark.fid"))
  /\ (is_Some (_measurements s !! "lcp") <-> is_Some (_lcpEntry s))
  /\ (is_Some (_measurements s !! "cls") <-> is_Some (_clsEntry s))
  /\ (forall k, is_Some (_measurements s !! k) ->
        k ∈ ["cls"; "lcp"; "fid"; "mark.fid"; "ttfb"])
  /\ (0 <= _performanceCursor s)%Z.

(** The started spans of a trace as (start, name, op), and the attributes set
    on the span. *)
Definition startedSpansOf (w : list Effect) : list (float * string * string) :=
  omap (fun e => match e with
                 | StartInactiveSpan ctx t => Some (t, span_name ctx, span_op ctx)
                 | _ => None
                 end) w.

Definition attributesSetOf (w : list Effect) : list (string * AttrValue) :=
  omap (fun e => match e with
                 | SetAttribute k v => Some (k, v)
                 | _ => None
                 end) w.

(** The accumulator that a pageload call writes, from the session it starts
    with. *)
Definition pageloadMeasurements (host : Host) (span : SpanJSON)
    (options : AddPerformanceEntriesOptions) (entries : list PerformanceEntry)
    (s : Session) : gmap string Measurement :=
  writtenMeasurements host options
    (withConnectionRtt host (_measurements (drained host span entries s))).

(** The trace of the long-task callback for one entry. *)
Definition longTaskTrace (host : Host) (entry : PerformanceEntry) : list Effect :=
  let start := msToSec (JS.toNumber (browserPerformanceTimeOrigin host) + startTime entry)%float in
  let spanOptions :=
    {| span_name := "Main UI thread blocked"; span_op := "ui.long-task";
       span_attributes :=
         {[ SEMANTIC_ATTRIBUTE_SENTRY_ORIGIN := AStr "auto.ui.browser.metrics" ]} |} in
  StartInactiveSpan spanOptions start
  :: (if startInactiveSpan spanOptions start
      then [SpanEnd spanOptions (start + msToSec (duration entry))%float] else []).

(** The attributes that the long-animation-frame observer gives the span of a
    frame whose first script is [initialScript]. *)
Definition loafAttributes (initialScript : PerformanceScriptTiming) : gmap string AttrValue :=
  let attributes : gmap string AttrValue :=
    {[ SEMANTIC_ATTRIBUTE_SENTRY_ORIGIN := AStr "auto.ui.browser.metrics" ]} in
  let attributes :=
    <["browser.script.invoker" := AStr (invoker initialScript)]> attributes in
  let attributes :=
    <["browser.script.invoker_type" := AStr (invokerType initialScript)]> attributes in
  let attributes :=
    if negb (String.eqb (sourceURL initialScript) "")
    then <["code.filepath" := AStr (sourceURL initialScript)]> attributes
    else attributes in
  let attributes :=
    if negb (String.eqb (sourceFunctionName initialScript) "")
    then <["code.function" := AStr (sourceFunctionName initialScript)]> attributes
    else attributes in
  if JS.strict_neq (sourceCharPosition initialScript) (-1)
  then <["browser.script.source_char_position" :=
           ANum (sourceCharPosition initialScript)]> attributes
  else attributes.

Definition loafTrace (host : Host) (entry : PerformanceLongAnimationFrameTiming) :
    list Effect :=
  match head (scripts entry) with
  | None => []
  | Some initialScript =>
      let start :=
        msToSec (JS.toNumber (browserPerformanceTimeOrigin host) + loaf_startTime entry)%float in
      let spanOptions :=
        {| span_name := "Main UI thread blocked"; span_op := "ui.long-animation-frame";
           span_attributes := loafAttributes initialScript |} in
      StartInactiveSpan spanOptions start
      :: (if startInactiveSpan spanOptions start
          then [SpanEnd spanOptions (start + msToSec (loaf_duration entry))%float] else [])
  end.

(** The options of the spans started in a trace. *)
Definition startedSpanOptionsOf (w : list Effect) : list SpanOptions :=
  omap (fun e => match e with StartInactiveSpan ctx _ => Some ctx | _ => None end) w.


(** The trace of the interaction callback for one entry. *)
Definition interactionTrace (host : Host) (entry : PerformanceEventTiming) : list Effect :=
  if bool_decide (event_name entry = "click") then
    let start :=
      msToSec (JS.toNumber (browserPerformanceTimeOrigin host) + event_startTime entry)%float in
    let componentName := getComponentName (event_target entry) in
    let spanOptions :=
      {| span_name := htmlTreeAsString (event_target entry);
         span_op := "ui.interaction." +:+ event_name entry;
         span_attributes :=
           if JS.truthy_str componentName
           then <["ui.component_name" := AStr (default "" componentName)]>
                  {[ SEMANTIC_ATTRIBUTE_SENTRY_ORIGIN := AStr "auto.ui.browser.metrics" ]}
           else {[ SEMANTIC_ATTRIBUTE_SENTRY_ORIGIN := AStr "auto.ui.browser.metrics" ]} |} in
    StartInactiveSpan spanOptions start
    :: (if startInactiveSpan spanOptions start
        then [SpanEnd spanOptions (start + msToSec (event_duration entry))%float] else [])
  else [].

(** The ops of the spans made from a navigation entry. *)
Definition navigationSpanOps : list string :=
  ["browser.unloadEvent"; "browser.redirect"; "browser.domContentLoadedEvent";
   "browser.loadEvent"; "browser.connect"; "browser.TLS/SSL"; "browser.cache";
   "browser.DNS"; "browser.request"; "browser.response"].

(** A span made from the navigation entry [entry]. *)
Definition isNavigationTimingSpan (entry : PerformanceEntry) (e : Effect) : Prop :=
  match e with
  | StartAndEndSpan _ _ ctx =>
      span_name ctx = name entry
      /\ span_op ctx ∈ navigationSpanOps
      /\ span_attributes ctx
         = {[ SEMANTIC_ATTRIBUTE_SENTRY_ORIGIN := AStr "auto.ui.browser.metrics" ]}
  | _ => False
  end.

(** A computation that leaves the session alone and emits at most [n]
    effects, all of them satisfying [P]. *)
Definition emitsAtMost (n : nat) (P : Effect -> Prop) (m : M unit) : Prop :=
  forall s, stateOf (m s) = s
            /\ length (effectsOf (m s)) <= n
            /\ Forall P (effectsOf (m s)).

(** The size attributes of a resource span and the entry fields they come
    from. *)
Definition resourceSizeAttributes : list (string * string) :=
  [("transferSize", "http.response_transfer_size");
   ("encodedBodySize", "http.response_content_length");
   ("decodedBodySize", "http.decoded_response_content_length")].

(** The trace of [_setWebVitalAttributes]: the attributes from the retained
    LCP entry, then those from the sources of the retained CLS entry. *)
Definition lcpTrace (lcpEntry : option LargestContentfulPaint) : list Effect :=
  match lcpEntry with
  | Some lcp =>
      (if bool_decide (is_Some (lcp_element lcp))
       then [SetAttribute "lcp.element" (AStr (htmlTreeAsString (lcp_element lcp)))] else [])
      ++ (if negb (String.eqb (lcp_id lcp) "")
          then [SetAttribute "lcp.id" (AStr (lcp_id lcp))] else [])
      ++ (if negb (String.eqb (lcp_url lcp) "")
          then [SetAttribute "lcp.url" (AStr (JS.slice_prefix 200 (JS.trim (lcp_url lcp))))]
          else [])
      ++ [SetAttribute "lcp.size" (ANum (lcp_size lcp))]
  | None => []
  end.

Definition clsSourceTrace (clsEntry : option LayoutShift) : list Effect :=
  match clsEntry with
  | Some cls =>
      match sources cls with
      | Some srcs =>
          imap (fun index source =>
                  SetAttribute ("cls.source." +:+ pretty (index + 1)%nat)
                    (AStr (htmlTreeAsString source))) srcs
      | None => []
      end
  | None => []
  end.

(** The two paint measurements and the names of the entries they are read
    from. *)
Definition paintMeasurements : list (string * string) :=
  [("fp", "first-paint"); ("fcp", "first-contentful-paint")].

End BrowserMetrics.

(** ** Concrete hosts, entries and sessions used by the examples *)

(** Stand-ins for the collaborators: DOM elements are described by a string,
    and a measurement value is a number that is finite. *)
Definition stubCollaborators : Collaborators :=
  {| Element := string;
     htmlTreeAsString := default "";
     getComponentName := fun _ => None;
     parseUrl := fun _ => (Some "https", Some "example.com");
     numberToString := fun _ => "8";
     startInactiveSpan := fun _ _ => true;
     isMeasurementValue := fun value =>
       match value with
       | Some v => negb (JS.isNaN v) && negb (is_infinity v)
       | None => false
       end |}.

Definition scriptEntry : PerformanceEntry :=
  {| entryType := "resource"; name := "https://example.com/app.js";
     startTime := 120%float; duration := 30%float; numProps := ∅;
     strProps := {[ "initiatorType" := "script" ]} |}.

Definition fetchEntry : PerformanceEntry :=
  {| entryType := "resource"; name := "https://example.com/api/items";
     startTime := 300%float; duration := 45%float;
     numProps := {[ "transferSize" := 2048%float ]};
     strProps := {[ "initiatorType" := "fetch" ]} |}.

Definition hydrationMeasure : PerformanceEntry :=
  {| entryType := "measure"; name := "Next.js-before-hydration";
     startTime := 1000%float; duration := (-5)%float; numProps := ∅; strProps := ∅ |}.

Definition earlyMeasure : PerformanceEntry :=
  {| entryType := "measure"; name := "Next.js-before-hydration";
     startTime := 1000%float; duration := 500%float; numProps := ∅; strProps := ∅ |}.

Definition lateMeasure : PerformanceEntry :=
  {| entryType := "measure"; name := "Next.js-before-hydration";
     startTime := 3000%float; duration := (-5)%float; numProps := ∅; strProps := ∅ |}.

Definition originMeasure : PerformanceEntry :=
  {| entryType := "measure"; name := "Next.js-before-hydration";
     startTime := 0%float; duration := 500%float; numProps := ∅; strProps := ∅ |}.

Definition pageloadSpan : SpanJSON :=
  {| op := Some "pageload"; start_timestamp := Some 1000%float |}.


Definition clsOnPageload : AddPerformanceEntriesOptions :=
  {| recordClsOnPageloadSpan := true |}.

(** The navigation entry of a page whose request starts at [requestStart'] ms,
    with the response from [responseStart'] to [responseEnd'] ms. *)
Definition navigationEntryAt (requestStart' responseStart' responseEnd' : float) :
    PerformanceEntry :=
  {| entryType := "navigation"; name := "https://example.com/";
     startTime := 0%float; duration := responseEnd';
     numProps := {[ "requestStart" := requestStart'; "responseStart" := responseStart';
                    "responseEnd" := responseEnd' ]};
     strProps := ∅ |}.

(** The log of a page: its navigation entry, with [requestStart] 2000 ms,
    [responseStart] 2500 ms and [responseEnd] 3000 ms, then [entries]. *)
Definition pageLog (entries : list PerformanceEntry) : list PerformanceEntry :=
  navigationEntryAt 2000 2500 3000 :: entries.

(** A host with that log and time origin 1 000 000 ms. *)
Definition hostWith (entries : list PerformanceEntry) : Host :=
  {| performance_getEntries := Some (pageLog entries);
     browserPerformanceTimeOrigin := Some 1000000%float;
     getNavigationEntry := Some {| requestStart := 2000%float; responseStart := 2500%float |};
     getActivationStart := 0%float;
     firstHiddenTime := infinity;
     navigator := None;
     location_origin := "https://example.com" |}.

(** A host with time origin 1 700 000 000 000 ms whose navigation entry has a
    [requestStart] of 0.0001 ms and a response still under way ([responseEnd]
    0), followed in the log by [entries]. *)
Definition earlyRequestHost (entries : list PerformanceEntry) : Host :=
  {| performance_getEntries := Some (navigationEntryAt 0.0001 20 0 :: entries);
     browserPerformanceTimeOrigin := Some 1700000000000%float;
     getNavigationEntry := Some {| requestStart := 0.0001%float; responseStart := 20%float |};
     getActivationStart := 0%float;
     firstHiddenTime := infinity;
     navigator := None;
     location_origin := "https://example.com" |}.

(** The first contentful paint, at 800 ms. *)
Definition firstContentfulPaint : PerformanceEntry :=
  {| entryType := "paint"; name := "first-contentful-paint";
     startTime := 800%float; duration := 0%float; numProps := ∅; strProps := ∅ |}.

(** An image that was not served from a cache, with an encoded body too large
    to report. *)
Definition imageEntry : PerformanceEntry :=
  {| entryType := "resource"; name := "https://example.com/hero.png";
     startTime := 400%float; duration := 80%float;
     numProps := {[ "transferSize" := 2048%float;
                    "encodedBodySize" := 3000000000%float ]};
     strProps := {[ "initiatorType" := "img"; "deliveryType" := "" ]} |}.

(** The first input, at 9000 ms. *)
Definition firstInput : PerformanceEntry :=
  {| entryType := "first-input"; name := "pointerdown";
     startTime := 9000%float; duration := 16%float; numProps := ∅; strProps := ∅ |}.

(** A host without the Performance API. *)
Definition legacyHost : Host :=
  {| performance_getEntries := None;
     browserPerformanceTimeOrigin := None;
     getNavigationEntry := None;
     getActivationStart := 0%float;
     firstHiddenTime := infinity;
     navigator := None;
     location_origin := "https://example.com" |}.

(** The host of [hostWith] on a device that reports its connection. *)
Definition mobileHostWith (entries : list PerformanceEntry) : Host :=
  {| performance_getEntries := Some (pageLog entries);
     browserPerformanceTimeOrigin := Some 1000000%float;
     getNavigationEntry := Some {| requestStart := 2000%float; responseStart := 2500%float |};
     getActivationStart := 0%float;
     firstHiddenTime := infinity;
     navigator :=
       Some {| connection :=
                 Some {| effectiveType := Some "4g"; connection_type := None;
                         rtt := Some 50%float |};
               deviceMemory := Some 8%float;
               hardwareConcurrency := None |};
     location_origin := "https://example.com" |}.

(** A navigation span started 10 s after the time origin of [hostWith]. *)
Definition laterNavigationSpan : SpanJSON :=
  {| op := Some "navigation"; start_timestamp := Some 1010%float |}.

Section Examples.
#[local] Existing Instance stubCollaborators.

(** The session after one CLS report of 0.25. *)
Definition clsSession : Session :=
  stateOf (_trackCLS {| metric_value := 0.25%float; metric_entries := [ {| sources := None |} ] |}
             initialSession).

(** A session holding an FID of 50 ms first seen at 10.0 s. *)
Definition fidSession : Session :=
  {| _performanceCursor := 0;
     _measurements :=
       {[ "fid" := {| value := 50%float; unit_ := "millisecond" |};
          "mark.fid" := {| value := 10%float; unit_ := "second" |} ]};
     _lcpEntry := None; _clsEntry := None |}.

(** The largest contentful paint: an image of 120 000 px². *)
Definition heroPaint : LargestContentfulPaint :=
  {| lcp_element := Some "img.hero"; lcp_id := "";
     lcp_url := "https://example.com/hero.png"; lcp_size := 120000%float |}.

(** A layout shift with two sources, the second without a node. *)
Definition bannerSources : list (option Element) := [Some "div#banner"; None].

Definition bannerShift : LayoutShift := {| sources := Some bannerSources |}.

(** The session after the four web vitals were reported: a CLS of 0.25, an
    LCP of 2400 ms, an FID of 50 ms for the first input and a TTFB of
    500 ms. *)
Definition reportedSession : Session :=
  stateOf
    (_trackTtfb {| metric_value := 500%float;
                   metric_entries := [navigationEntryAt 2000 2500 3000] |}
       (stateOf
          (_trackFID (hostWith [])
             {| metric_value := 50%float; metric_entries := [firstInput] |}
             (stateOf
                (_trackLCP {| metric_value := 2400%float; metric_entries := [heroPaint] |}
                   (stateOf
                      (_trackCLS
                         {| metric_value := 0.25%float; metric_entries := [bannerShift] |}
                         initialSession))))))).

End Examples.

(** * Properties *)

Section Properties.
Context `{Collaborators}.

(** *** Running the monad *)

Lemma run_bind {A B} (m : M A) (f : A → M B) (s : Session) :
  (m ≫= f) s =
  (valueOf (f (valueOf (m s)) (stateOf (m s))),
   stateOf (f (valueOf (m s)) (stateOf (m s))),
   effectsOf (m s) ++ effectsOf (f (valueOf (m s)) (stateOf (m s)))).
Proof.
  unfold mbind, M_bind, valueOf, stateOf, effectsOf.
  destruct (m s) as [[a s1] w1]; simpl.
  by destruct (f a s1) as [[b s2] w2].
Qed.

Lemma stateOf_bind {A B} (m : M A) (f : A → M B) s :
  stateOf ((m ≫= f) s) = stateOf (f (valueOf (m s)) (stateOf (m s))).
Proof. by rewrite run_bind. Qed.

Lemma effectsOf_bind {A B} (m : M A) (f : A → M B) s :
  effectsOf ((m ≫= f) s) = effectsOf (m s) ++ effectsOf (f (valueOf (m s)) (stateOf (m s))).
Proof. by rewrite run_bind. Qed.

Lemma run_forEach_emits {A} (l : list A) (f : A → M unit) (g : A → Effect) :
  (∀ x s, f x s = (tt, s, [g x])) → ∀ s, forEach l f s = (tt, s, g <$> l).
Proof.
  intros Hf. induction l as [|x l IH]; intros s; simpl; [done|].
  rewrite run_bind, Hf. unfold valueOf, stateOf, effectsOf; simpl.
  by rewrite IH.
Qed.

Lemma run_when (b : bool) (m : M unit) s :
  when b m s = if b then m s else (tt, s, []).
Proof. by destruct b. Qed.

Ltac run :=
  repeat (rewrite ?run_bind, ?run_when;
          cbn [mret M_ret emit gets modify startAndEndSpan setAttribute
               setMeasurementEntry deleteMeasurementEntry
               valueOf stateOf effectsOf fst snd]).

Ltac split_if :=
  match goal with |- context [if ?b then _ else _] => destruct b end; run.

(** *** State projections kept by a computation *)

Lemma preserves_ret {B} (proj : Session → B) {A} (a : A) : preserves proj (mret a).
Proof. done. Qed.
Lemma preserves_bind {B} (proj : Session → B) {A C} (m : M A) (f : A → M C) :
  preserves proj m → (∀ a, preserves proj (f a)) → preserves proj (m ≫= f).
Proof. intros Hm Hf s. rewrite stateOf_bind, Hf. apply Hm. Qed.
Lemma preserves_emit {B} (proj : Session → B) e : preserves proj (emit e).
Proof. done. Qed.
Lemma preserves_gets {B} (proj : Session → B) {A} (f : Session → A) : preserves proj (gets f).
Proof. done. Qed.
Lemma preserves_modify {B} (proj : Session → B) f :
  (∀ s, proj (f s) = proj s) → preserves proj (modify f).
Proof. intros Hf s. apply Hf. Qed.
Lemma preserves_when {B} (proj : Session → B) b m :
  preserves proj m → preserves proj (when b m).
Proof. by destruct b. Qed.
Lemma preserves_forEach {B} (proj : Session → B) {A} (l : list A) f :
  (∀ x, preserves proj (f x)) → preserves proj (forEach l f).
Proof.
  intros Hf. induction l as [|x l IH]; simpl; [done|].
  apply preserves_bind; auto.
Qed.
Lemma preserves_startAndEndSpan {B} (proj : Session → B) a b c :
  preserves proj (startAndEndSpan a b c).
Proof. done. Qed.
Lemma preserves_setAttribute {B} (proj : Session → B) k v :
  preserves proj (setAttribute k v).
Proof. done. Qed.

Lemma preserves_cursor_setMeasurementEntry k m :
  preserves _performanceCursor (setMeasurementEntry k m).
Proof. done. Qed.
Lemma preserves_cursor_deleteMeasurementEntry k :
  preserves _performanceCursor (deleteMeasurementEntry k).
Proof. done. Qed.
Lemma preserves_lcpEntry_setMeasurementEntry k m :
  preserves _lcpEntry (setMeasurementEntry k m).
Proof. done. Qed.
Lemma preserves_clsEntry_setMeasurementEntry k m :
  preserves _clsEntry (setMeasurementEntry k m).
Proof. done. Qed.
Lemma preserves_lookup_setMeasurementEntry k k' m :
  k ≠ k' → preserves (λ s, _measurements s !! k) (setMeasurementEntry k' m).
Proof. intros Hk s. cbn. by rewrite lookup_insert_ne. Qed.

Create HintDb keeps.
#[local] Hint Resolve preserves_ret preserves_emit preserves_gets
  preserves_startAndEndSpan preserves_setAttribute
  preserves_cursor_setMeasurementEntry preserves_cursor_deleteMeasurementEntry
  preserves_lcpEntry_setMeasurementEntry preserves_clsEntry_setMeasurementEntry
  preserves_lookup_setMeasurementEntry : keeps.

Ltac keeps :=
  repeat lazymatch goal with
  | |- preserves _ (match ?x with _ => _ end) => destruct x
  | |- preserves _ (_ ≫= _) => apply preserves_bind
  | |- preserves _ (when _ _) => apply preserves_when
  | |- preserves _ (forEach _ _) => apply preserves_forEach
  | |- preserves _ _ => solve [eauto with keeps]
  | |- ∀ _, _ => intros ?
  end.

Lemma preserves_processEntry {B} (proj : Session → B) host span timeOrigin entry :
  (∀ m, preserves proj (setMeasurementEntry "fp" m)) →
  (∀ m, preserves proj (setMeasurementEntry "fcp" m)) →
  preserves proj (processEntry host span timeOrigin entry).
Proof.
  intros Hfp Hfcp.
  unfold processEntry, _addNavigationSpans, _addPerformanceNavigationTiming, _addRequest,
    _addMeasureSpans, _addResourceSpans.
  keeps.
Qed.

Lemma preserves_forEach_processEntry {B} (proj : Session → B) host span timeOrigin l :
  (∀ m, preserves proj (setMeasurementEntry "fp" m)) →
  (∀ m, preserves proj (setMeasurementEntry "fcp" m)) →
  preserves proj (forEach l (processEntry host span timeOrigin)).
Proof. intros. apply preserves_forEach. intros. by apply preserves_processEntry. Qed.

(** *** Effects emitted by a computation *)

Lemma emitsOnly_ret P {A} (a : A) : emitsOnly P (mret a).
Proof. intros s. constructor. Qed.
Lemma emitsOnly_bind P {A C} (m : M A) (f : A → M C) :
  emitsOnly P m → (∀ a, emitsOnly P (f a)) → emitsOnly P (m ≫= f).
Proof. intros Hm Hf s. rewrite effectsOf_bind. apply Forall_app; split; [apply Hm|apply Hf]. Qed.
Lemma emitsOnly_emit (P : Effect → Prop) e : P e → emitsOnly P (emit e).
Proof. intros He s. by repeat constructor. Qed.
Lemma emitsOnly_gets P {A} (f : Session → A) : emitsOnly P (gets f).
Proof. intros s. constructor. Qed.
Lemma emitsOnly_modify P f : emitsOnly P (modify f).
Proof. intros s. constructor. Qed.
Lemma emitsOnly_when P b m : emitsOnly P m → emitsOnly P (when b m).
Proof. destruct b; [done|]. intros _ s. constructor. Qed.
Lemma emitsOnly_forEach P {A} (l : list A) f :
  (∀ x, emitsOnly P (f x)) → emitsOnly P (forEach l f).
Proof.
  intros Hf. induction l as [|x l IH]; simpl; [apply emitsOnly_ret|].
  apply emitsOnly_bind; auto.
Qed.
Lemma emitsOnly_setMeasurementEntry P k m : emitsOnly P (setMeasurementEntry k m).
Proof. apply emitsOnly_modify. Qed.
Lemma emitsOnly_deleteMeasurementEntry P k : emitsOnly P (deleteMeasurementEntry k).
Proof. apply emitsOnly_modify. Qed.

Lemma emitted (P : Effect → Prop) {A} (m : M A) s e :
  emitsOnly P m → e ∈ effectsOf (m s) → P e.
Proof. intros Hm. apply Forall_forall, Hm. Qed.

Create HintDb emits.
#[local] Hint Resolve emitsOnly_ret emitsOnly_gets emitsOnly_modify
  emitsOnly_setMeasurementEntry emitsOnly_deleteMeasurementEntry : emits.

Ltac emits :=
  repeat lazymatch goal with
  | |- emitsOnly _ (match ?x with _ => _ end) => destruct x eqn:?
  | |- emitsOnly _ (_ ≫= _) => apply emitsOnly_bind
  | |- emitsOnly _ (when _ _) => apply emitsOnly_when
  | |- emitsOnly _ (forEach _ _) => apply emitsOnly_forEach
  | |- emitsOnly _ (startAndEndSpan _ _ _) => apply emitsOnly_emit
  | |- emitsOnly _ (setAttribute _ _) => apply emitsOnly_emit
  | |- emitsOnly _ (emit _) => apply emitsOnly_emit
  | |- emitsOnly _ _ => solve [eauto with emits]
  | |- ∀ _, _ => intros ?
  end.

Lemma emitsOnly_processEntry host span timeOrigin entry :
  emitsOnly entrySpan (processEntry host span timeOrigin entry).
Proof.
  unfold processEntry, _addNavigationSpans, _addPerformanceNavigationTiming, _addRequest,
    _addMeasureSpans, _addResourceSpans.
  emits; cbn [entrySpan span_op]; try (cbn [String.append]; discriminate).
  all: repeat match goal with
       | Hb : _ || _ = true |- _ => apply orb_prop in Hb; destruct Hb as [Hb|Hb]
       | Hb : bool_decide _ = true |- _ => apply bool_decide_eq_true in Hb
       end.
  all: try (by congruence).
  destruct (JS.truthy_str _); cbn [String.append]; discriminate.
Qed.

Lemma emitsOnly_drainEntries host span timeOrigin entries :
  emitsOnly entrySpan (drainEntries host span timeOrigin entries).
Proof.
  unfold drainEntries. emits. apply emitsOnly_processEntry.
Qed.

(** *** The straight-line blocks, run *)

Lemma emitsOnly_trackNavigator host : emitsOnly navigatorAttribute (_trackNavigator host).
Proof.
  unfold _trackNavigator. emits; cbn [navigatorAttribute]; set_solver.
Qed.

Lemma preserves_cursor_trackNavigator host :
  preserves _performanceCursor (_trackNavigator host).
Proof. unfold _trackNavigator. keeps. Qed.
Lemma preserves_lcpEntry_trackNavigator host : preserves _lcpEntry (_trackNavigator host).
Proof. unfold _trackNavigator. keeps. Qed.
Lemma preserves_clsEntry_trackNavigator host : preserves _clsEntry (_trackNavigator host).
Proof. unfold _trackNavigator. keeps. Qed.

Lemma measurements_trackNavigator host s :
  _measurements (stateOf (_trackNavigator host s)) = withConnectionRtt host (_measurements s).
Proof.
  unfold _trackNavigator, withConnectionRtt.
  destruct (navigator host) as [nav|]; [|done].
  destruct (connection nav) as [conn|]; run; repeat split_if; done.
Qed.

Lemma run_addTtfbRequestTimeToMeasurements host s :
  _addTtfbRequestTimeToMeasurements host s =
  (tt, set_measurements (withTtfbRequestTime host (_measurements s)) s, []).
Proof.
  unfold _addTtfbRequestTimeToMeasurements, withTtfbRequestTime.
  destruct s as [c ms l cl]; cbn [_measurements].
  destruct (getNavigationEntry host) as [nav|]; [|done].
  run. by destruct (_ <=? _)%float.
Qed.

Lemma run_createFidSpan s :
  createFidSpan s =
  (tt, set_measurements (withoutFidMark (_measurements s)) s, fidSpan (_measurements s)).
Proof.
  unfold createFidSpan, withoutFidMark, fidSpan.
  destruct s as [c ms l cl]; run; cbn [_measurements].
  destruct (ms !! "mark.fid"), (ms !! "fid"); by run.
Qed.

Lemma run_gateClsMeasurement options s :
  gateClsMeasurement options s =
  (tt, set_measurements (gateCls options (_measurements s)) s, []).
Proof.
  unfold gateClsMeasurement, gateCls.
  destruct s as [c ms l cl]; run; cbn [_measurements].
  destruct (_ || _); by run.
Qed.

Lemma run_writeMeasurements s :
  writeMeasurements s = (tt, s, writeMeasurement <$> map_to_list (_measurements s)).
Proof.
  unfold writeMeasurements. run.
  rewrite (run_forEach_emits _ _ writeMeasurement) by (by intros []).
  done.
Qed.

Lemma emitsOnly_setWebVitalAttributes : emitsOnly webVitalAttribute _setWebVitalAttributes.
Proof.
  unfold _setWebVitalAttributes. emits; cbn [webVitalAttribute]; reflexivity.
Qed.

Lemma stateOf_setWebVitalAttributes s : stateOf (_setWebVitalAttributes s) = s.
Proof.
  assert (preserves (λ s, s) _setWebVitalAttributes) as Hp; [|apply Hp].
  unfold _setWebVitalAttributes. keeps.
Qed.

Lemma effectsOf_setWebVitalAttributes_none s :
  _lcpEntry s = None → _clsEntry s = None → effectsOf (_setWebVitalAttributes s) = [].
Proof.
  intros Hl Hc. unfold _setWebVitalAttributes. run. rewrite Hl. run. by rewrite Hc.
Qed.

Lemma effectsOf_finalizePageload host options timeOrigin s :
  let ms := writtenMeasurements host options (_measurements s) in
  effectsOf (finalizePageload host options timeOrigin s) =
  fidSpan (withTtfbRequestTime host (_measurements s))
  ++ (writeMeasurement <$> map_to_list ms)
  ++ [SetAttribute "performance.timeOrigin" (ANum timeOrigin);
      SetAttribute "performance.activationStart" (ANum (getActivationStart host))]
  ++ effectsOf (_setWebVitalAttributes (set_measurements ms s)).
Proof.
  unfold finalizePageload, writtenMeasurements.
  repeat (rewrite ?run_bind, ?run_addTtfbRequestTimeToMeasurements, ?run_createFidSpan,
            ?run_gateClsMeasurement, ?run_writeMeasurements;
          cbn [valueOf stateOf effectsOf fst snd setAttribute emit
               set_measurements _measurements _performanceCursor _lcpEntry _clsEntry app]).
  done.
Qed.

Lemma stateOf_finalizePageload host options timeOrigin s :
  stateOf (finalizePageload host options timeOrigin s) =
  set_measurements (writtenMeasurements host options (_measurements s)) s.
Proof.
  unfold finalizePageload, writtenMeasurements.
  repeat (rewrite ?run_bind, ?run_addTtfbRequestTimeToMeasurements, ?run_createFidSpan,
            ?run_gateClsMeasurement, ?run_writeMeasurements, ?stateOf_setWebVitalAttributes;
          cbn [valueOf stateOf effectsOf fst snd setAttribute emit
               set_measurements _measurements _performanceCursor _lcpEntry _clsEntry app]).
  done.
Qed.

(** *** [addPerformanceEntries], decomposed *)

Lemma effectsOf_addPerformanceEntries host span options entries s :
  available host entries →
  effectsOf (addPerformanceEntries host span options s) =
  effectsOf (drainEntries host span (timeOriginOf host) entries s)
  ++ effectsOf (_trackNavigator host (drained host span entries s))
  ++ (if bool_decide (op span = Some "pageload")
      then effectsOf (finalizePageload host options (timeOriginOf host)
                        (stateOf (_trackNavigator host (drained host span entries s))))
      else []).
Proof.
  intros [Hlog Horigin]. unfold addPerformanceEntries, drained, timeOriginOf.
  rewrite Hlog, Horigin. cbn [negb]. run.
  destruct (bool_decide (op span = Some "pageload")); run; by rewrite ?app_nil_r.
Qed.

Lemma stateOf_addPerformanceEntries host span options entries s :
  available host entries →
  stateOf (addPerformanceEntries host span options s) =
  {| _performanceCursor := Z.max (Z.of_nat (length entries) - 1) 0;
     _measurements := ∅; _lcpEntry := None; _clsEntry := None |}.
Proof.
  intros [Hlog Horigin]. unfold addPerformanceEntries.
  rewrite Hlog, Horigin. cbn [negb]. run.
  destruct (bool_decide (op span = Some "pageload")); run;
    rewrite ?stateOf_finalizePageload;
    unfold set_measurements, set_clsEntry, set_lcpEntry;
    cbn [_performanceCursor _measurements _lcpEntry _clsEntry];
    rewrite preserves_cursor_trackNavigator; unfold drainEntries; by run.
Qed.

Lemma preserves_drainEntries {B} (proj : Session → B) host span timeOrigin entries :
  (∀ m, preserves proj (setMeasurementEntry "fp" m)) →
  (∀ m, preserves proj (setMeasurementEntry "fcp" m)) →
  (∀ c s, proj (set_performanceCursor c s) = proj s) →
  preserves proj (drainEntries host span timeOrigin entries).
Proof.
  intros Hfp Hfcp Hc. unfold drainEntries.
  apply preserves_bind; [apply preserves_gets|intros cursor].
  apply preserves_bind; [by apply preserves_forEach_processEntry|intros _].
  by apply preserves_modify.
Qed.

Lemma lookup_drained host span entries s k :
  k ≠ "fp" → k ≠ "fcp" →
  _measurements (drained host span entries s) !! k = _measurements s !! k.
Proof.
  intros Hfp Hfcp. unfold drained.
  apply (preserves_drainEntries (λ s, _measurements s !! k)); [| |done];
    intros m; by apply preserves_lookup_setMeasurementEntry.
Qed.

Lemma lcpEntry_drained host span entries s :
  _lcpEntry (drained host span entries s) = _lcpEntry s.
Proof. apply (preserves_drainEntries _lcpEntry); eauto with keeps. Qed.

Lemma clsEntry_drained host span entries s :
  _clsEntry (drained host span entries s) = _clsEntry s.
Proof. apply (preserves_drainEntries _clsEntry); eauto with keeps. Qed.

Lemma drop_pred_length {A} (l : list A) :
  drop (length l - 1) l = match last l with Some x => [x] | None => [] end.
Proof.
  induction l as [|x l IH]; [done|].
  destruct l as [|y l]; [done|].
  cbn [length] in *. rewrite last_cons_cons.
  replace (S (S (length l)) - 1) with (S (S (length l) - 1)) by lia.
  apply IH.
Qed.

Lemma run_addPerformanceEntries_unavailable host span options s :
  (∀ entries, ¬ available host entries) →
  addPerformanceEntries host span options s = (tt, s, []).
Proof.
  intros Hno. unfold addPerformanceEntries.
  destruct (performance_getEntries host) as [entries|] eqn:Hlog; [|done].
  destruct (JS.truthy_opt (browserPerformanceTimeOrigin host)) eqn:Horigin; [|done].
  by destruct (Hno entries).
Qed.

(** *** Lookups in the accumulator through the pageload block *)

Lemma lookup_withConnectionRtt host ms k m :
  withConnectionRtt host ms !! k = Some m → k = "connection.rtt" ∨ ms !! k = Some m.
Proof.
  unfold withConnectionRtt. repeat case_match; auto.
  destruct (decide (k = "connection.rtt")) as [->|]; [by left|].
  rewrite lookup_insert_ne by done. auto.
Qed.

Lemma lookup_withConnectionRtt_ne host ms k :
  k ≠ "connection.rtt" → withConnectionRtt host ms !! k = ms !! k.
Proof.
  intros. unfold withConnectionRtt. repeat case_match; auto.
  by rewrite lookup_insert_ne.
Qed.

Lemma lookup_withTtfbRequestTime host ms k m :
  withTtfbRequestTime host ms !! k = Some m → k = "ttfb.requestTime" ∨ ms !! k = Some m.
Proof.
  unfold withTtfbRequestTime. repeat case_match; auto.
  destruct (decide (k = "ttfb.requestTime")) as [->|]; [by left|].
  rewrite lookup_insert_ne by done. auto.
Qed.

Lemma lookup_withTtfbRequestTime_ne host ms k :
  k ≠ "ttfb.requestTime" → withTtfbRequestTime host ms !! k = ms !! k.
Proof.
  intros. unfold withTtfbRequestTime. repeat case_match; auto.
  by rewrite lookup_insert_ne.
Qed.

Lemma lookup_withoutFidMark ms k m :
  withoutFidMark ms !! k = Some m → ms !! k = Some m.
Proof.
  unfold withoutFidMark. repeat case_match; auto.
  by intros [_ ?]%lookup_delete_Some.
Qed.

Lemma lookup_withoutFidMark_ne ms k :
  k ≠ "mark.fid" → withoutFidMark ms !! k = ms !! k.
Proof.
  intros. unfold withoutFidMark. repeat case_match; auto.
  by rewrite lookup_delete_ne.
Qed.

Lemma lookup_withoutFidMark_both ms fidMark fid :
  ms !! "mark.fid" = Some fidMark → ms !! "fid" = Some fid →
  withoutFidMark ms !! "mark.fid" = None.
Proof.
  intros Hm Hf. unfold withoutFidMark. rewrite Hm, Hf. apply lookup_delete_eq.
Qed.

Lemma lookup_gateCls options ms k m :
  gateCls options ms !! k = Some m → ms !! k = Some m.
Proof.
  unfold gateCls. case_match; auto.
  by intros [_ ?]%lookup_delete_Some.
Qed.

Lemma lookup_gateCls_ne options ms k :
  k ≠ "cls" → gateCls options ms !! k = ms !! k.
Proof.
  intros. unfold gateCls. case_match; auto. by rewrite lookup_delete_ne.
Qed.

Lemma lookup_gateCls_closed options ms :
  ms !! "fcp" = None ∨ recordClsOnPageloadSpan options = false →
  gateCls options ms !! "cls" = None.
Proof.
  intros Hgate. unfold gateCls.
  assert (negb (bool_decide (is_Some (ms !! "fcp")))
          || negb (recordClsOnPageloadSpan options) = true) as ->.
  { destruct Hgate as [->| ->]; [done|]. by rewrite orb_true_r. }
  apply lookup_delete_eq.
Qed.

Lemma elem_of_written (ms : gmap string Measurement) k v u :
  SetMeasurement k v u ∈ writeMeasurement <$> map_to_list ms →
  ∃ m, ms !! k = Some m ∧ value m = v ∧ unit_ m = u.
Proof.
  intros ([k' m] & Heq & Hin)%list_elem_of_fmap.
  apply elem_of_map_to_list in Hin. injection Heq as -> -> ->. eauto.
Qed.

(** *** Floating-point facts *)

Lemma SFcompare_refl (a : spec_float) : a ≠ S754_nan → SFcompare a a = Some Eq.
Proof.
  destruct a as [[]|[]| |[] m e]; cbn; try done;
    intros _; by rewrite Z.compare_refl, Pos.compare_cont_refl.
Qed.

Lemma SFltb_not_nan (a b : spec_float) :
  SFltb a b = true → a ≠ S754_nan ∧ b ≠ S754_nan.
Proof.
  unfold SFltb. by destruct a as [[]|[]| |[] m e], b as [[]|[]| |[] m' e'].
Qed.

Lemma ltb_isNaN (x y : float) :
  (x <? y)%float = true → JS.isNaN x = false ∧ JS.isNaN y = false.
Proof.
  rewrite FloatAxioms.ltb_spec. intros [Hx Hy]%SFltb_not_nan.
  unfold JS.isNaN. rewrite !FloatAxioms.eqb_spec. unfold SFeqb.
  by rewrite !SFcompare_refl.
Qed.

Lemma Math_max_lt (x y : float) : (x <? y)%float = true → JS.Math_max x y = y.
Proof.
  intros Hlt. destruct (ltb_isNaN _ _ Hlt) as [Hx Hy].
  unfold JS.Math_max. by rewrite Hx, Hy, Hlt.
Qed.

Lemma SFcompare_antisym (a b : spec_float) :
  SFcompare a b = Some Lt → SFcompare b a = Some Gt.
Proof.
  destruct a as [[]|[]| |[] m e], b as [[]|[]| |[] m' e']; cbn; try done.
  all: fold (Pos.compare m m') (Pos.compare m' m).
  all: rewrite (Z.compare_antisym e e'), (Pos.compare_antisym m m').
  all: destruct (e ?= e')%Z; cbn; try done.
  all: by destruct (m ?= m')%positive.
Qed.

Lemma ltb_antisym (x y : float) : (x <? y)%float = true → (y <? x)%float = false.
Proof.
  rewrite !FloatAxioms.ltb_spec. unfold SFltb.
  destruct (SFcompare (Prim2SF x) (Prim2SF y)) as [[]|] eqn:Hc; try done.
  by rewrite (SFcompare_antisym _ _ Hc).
Qed.

Lemma Prim2SF_zero : Prim2SF 0 = S754_zero false.
Proof. reflexivity. Qed.

Lemma finite_cases (x : float) :
  is_finite x = true →
  (∃ s, Prim2SF x = S754_zero s) ∨ (∃ s m e, Prim2SF x = S754_finite s m e).
Proof.
  unfold is_finite, is_nan, is_infinity.
  rewrite !FloatAxioms.eqb_spec, FloatAxioms.abs_spec.
  destruct (Prim2SF x) as [s|s| |s m e]; cbn; eauto; try done.
  by destruct s.
Qed.

Lemma add_zero_sub_self (x : float) : is_finite x = true → (x + 0 - x)%float = 0%float.
Proof.
  intros Hx. apply Prim2SF_inj.
  rewrite FloatAxioms.sub_spec, FloatAxioms.add_spec, Prim2SF_zero.
  destruct (finite_cases x Hx) as [[s ->]|(s & m & e & ->)].
  - by destruct s.
  - cbn. by rewrite Z.sub_diag.
Qed.

Lemma Math_max_gt (x y : float) : (y <? x)%float = true → JS.Math_max x y = x.
Proof.
  intros Hlt. destruct (ltb_isNaN _ _ Hlt) as [Hy Hx].
  unfold JS.Math_max. by rewrite Hx, Hy, (ltb_antisym _ _ Hlt), Hlt.
Qed.

Lemma clamped_duration (d : float) :
  (d <? 0)%float = true → msToSec (JS.Math_max 0 d) = 0%float.
Proof. intros Hd. by rewrite (Math_max_gt _ _ Hd). Qed.


(** *** The claims *)

Lemma filter_none {A} (f : A → bool) (l : list A) :
  Forall (λ x, f x = false) l → List.filter f l = [].
Proof. induction 1 as [|x l Hx _ IH]; cbn; [done|]. by rewrite Hx. Qed.

Lemma entrySpan_not_ui_action l :
  Forall entrySpan l → Forall (λ e, isUiActionSpan e = false) l.
Proof.
  intros Hl. eapply Forall_impl; [exact Hl|].
  intros [a b ctx| | | |] He; cbn in *; try done.
  by apply bool_decide_eq_false.
Qed.

Lemma navigatorAttribute_not_ui_action l :
  Forall navigatorAttribute l → Forall (λ e, isUiActionSpan e = false) l.
Proof. intros Hl. eapply Forall_impl; [exact Hl|]. by intros []. Qed.

Lemma webVitalAttribute_not_ui_action l :
  Forall webVitalAttribute l → Forall (λ e, isUiActionSpan e = false) l.
Proof. intros Hl. eapply Forall_impl; [exact Hl|]. by intros []. Qed.

Lemma written_not_ui_action (ms : gmap string Measurement) :
  Forall (λ e, isUiActionSpan e = false) (writeMeasurement <$> map_to_list ms).
Proof. apply Forall_fmap, Forall_forall. by intros []. Qed.

(** A listed call of another kind is not the call looked for. *)
Ltac not_listed H :=
  repeat (apply elem_of_cons in H as [H|H]; [discriminate H|]);
  by apply elem_of_nil in H.

(** C3 (amended).  Pinned measure start: when the [startTime] handed to
    [_addMeasureSpans] is earlier than the navigation entry's [requestStart]
    (both in seconds), the synthesized span starts at
    [timeOrigin + requestTime]; its end stays at [timeOrigin + startTime +
    duration].  Whenever the pinned start differs, as a number, from the raw
    start [timeOrigin + startTime], the span carries the flag
    [sentry.browser.measure_happened_before_request] and the attribute
    [sentry.browser.measure_start_time], whose value is the pinned start, not
    the raw one. *)
Theorem measure_start_pinned host entry startTime duration timeOrigin s :
  (startTime <? requestTimeOf host)%float = true →
  let pinned := (timeOrigin + requestTimeOf host)%float in
  let raw := (timeOrigin + startTime)%float in
  ∃ attributes,
    _addMeasureSpans host entry startTime duration timeOrigin s =
      (pinned, s,
       [StartAndEndSpan pinned (raw + duration)%float
          {| span_name := name entry; span_op := entryType entry;
             span_attributes := attributes |}])
    ∧ (JS.strict_neq pinned raw = true →
       attributes !! "sentry.browser.measure_happened_before_request" = Some (ABool true)
       ∧ attributes !! "sentry.browser.measure_start_time" = Some (ANum pinned)).
Proof.
  intros Hlt pinned raw. unfold _addMeasureSpans. run.
  fold (requestTimeOf host). rewrite (Math_max_lt _ _ Hlt). fold pinned raw.
  eexists. split; [reflexivity|].
  intros ->. by rewrite lookup_insert_eq, lookup_insert_ne, lookup_insert_eq.
Qed.

(** C5 (amended).  Session reset: after [addPerformanceEntries] has run on a
    host with the Performance API, the accumulator is empty and the retained
    LCP and CLS entries are undefined, whatever the span's op; the cursor is
    not reset, it keeps the value that the drain of that call gave it. *)
Theorem session_reset_keeps_cursor host span options entries s :
  available host entries →
  stateOf (addPerformanceEntries host span options s) =
  {| _performanceCursor := Z.max (Z.of_nat (length entries) - 1) 0;
     _measurements := ∅; _lcpEntry := None; _clsEntry := None |}.
Proof. apply stateOf_addPerformanceEntries. Qed.

(** C6.  CLS gating: on a pageload span, when the accumulator holds no [fcp]
    measurement once the new entries have been classified, or when the options
    do not ask for CLS on the pageload span, no [cls] measurement is written,
    whatever the CLS callback stored. *)
Theorem cls_gating host span options entries s :
  available host entries →
  op span = Some "pageload" →
  _measurements (drained host span entries s) !! "fcp" = None
  ∨ recordClsOnPageloadSpan options = false →
  ∀ v u, SetMeasurement "cls" v u ∉ effectsOf (addPerformanceEntries host span options s).
Proof.
  intros Hav Hop Hgate v u.
  rewrite (effectsOf_addPerformanceEntries _ _ _ _ _ Hav), Hop.
  rewrite bool_decide_eq_true_2 by done.
  rewrite effectsOf_finalizePageload, measurements_trackNavigator.
  rewrite !elem_of_app. intros [Hin|[Hin|[Hin|[Hin|[Hin|Hin]]]]].
  - by apply (emitted _ _ _ _ (emitsOnly_drainEntries _ _ _ _)) in Hin.
  - by apply (emitted _ _ _ _ (emitsOnly_trackNavigator _)) in Hin.
  - unfold fidSpan in Hin. repeat case_match; not_listed Hin.
  - apply elem_of_written in Hin as (m & Hm & _).
    unfold writtenMeasurements in Hm. rewrite lookup_gateCls_closed in Hm; [done|].
    destruct Hgate as [Hfcp|]; [left|by right].
    by rewrite lookup_withoutFidMark_ne, lookup_withTtfbRequestTime_ne,
      lookup_withConnectionRtt_ne.
  - not_listed Hin.
  - by apply (emitted _ _ _ _ emitsOnly_setWebVitalAttributes) in Hin.
Qed.

(** C7.  FID derived span: on a pageload span, when the accumulator holds both
    [fid] and [mark.fid], exactly one span with op [ui.action] is created; it
    is named [first input delay] and spans from the value of [mark.fid] to
    that value plus the [fid] value in seconds; and no [mark.fid] measurement
    is written to the span. *)
Theorem fid_derived_span host span options entries s fid fidMark :
  available host entries →
  op span = Some "pageload" →
  _measurements (drained host span entries s) !! "fid" = Some fid →
  _measurements (drained host span entries s) !! "mark.fid" = Some fidMark →
  let w := effectsOf (addPerformanceEntries host span options s) in
  List.filter isUiActionSpan w =
    [StartAndEndSpan (value fidMark) (value fidMark + msToSec (value fid))%float
       {| span_name := "first input delay"; span_op := "ui.action";
          span_attributes :=
            {[ SEMANTIC_ATTRIBUTE_SENTRY_ORIGIN := AStr "auto.ui.browser.metrics" ]} |}]
  ∧ ∀ v u, SetMeasurement "mark.fid" v u ∉ w.
Proof.
  intros Hav Hop Hfid Hmark w. subst w.
  rewrite (effectsOf_addPerformanceEntries _ _ _ _ _ Hav), Hop.
  rewrite bool_decide_eq_true_2 by done.
  rewrite effectsOf_finalizePageload, measurements_trackNavigator.
  set (ms1 := withTtfbRequestTime host
                (withConnectionRtt host (_measurements (drained host span entries s)))).
  assert (ms1 !! "fid" = Some fid) as Hfid1.
  { unfold ms1. by rewrite lookup_withTtfbRequestTime_ne, lookup_withConnectionRtt_ne. }
  assert (ms1 !! "mark.fid" = Some fidMark) as Hmark1.
  { unfold ms1. by rewrite lookup_withTtfbRequestTime_ne, lookup_withConnectionRtt_ne. }
  split.
  - rewrite !List.filter_app.
    rewrite (filter_none _ (effectsOf (drainEntries _ _ _ _ _)))
      by apply entrySpan_not_ui_action, emitsOnly_drainEntries.
    rewrite (filter_none _ (effectsOf (_trackNavigator _ _)))
      by apply navigatorAttribute_not_ui_action, emitsOnly_trackNavigator.
    rewrite (filter_none _ (_ <$> _)) by apply written_not_ui_action.
    rewrite (filter_none _ (effectsOf (_setWebVitalAttributes _)))
      by apply webVitalAttribute_not_ui_action, emitsOnly_setWebVitalAttributes.
    unfold fidSpan. by rewrite Hmark1, Hfid1.
  - intros v u. rewrite !elem_of_app. intros [Hin|[Hin|[Hin|[Hin|[Hin|Hin]]]]].
    + by apply (emitted _ _ _ _ (emitsOnly_drainEntries _ _ _ _)) in Hin.
    + by apply (emitted _ _ _ _ (emitsOnly_trackNavigator _)) in Hin.
    + unfold fidSpan in Hin. rewrite Hmark1, Hfid1 in Hin. not_listed Hin.
    + apply elem_of_written in Hin as (m & Hm & _).
      unfold writtenMeasurements in Hm. fold ms1 in Hm.
      apply lookup_gateCls in Hm.
      by rewrite (lookup_withoutFidMark_both _ _ _ Hmark1 Hfid1) in Hm.
    + not_listed Hin.
    + by apply (emitted _ _ _ _ emitsOnly_setWebVitalAttributes) in Hin.
Qed.

(** C8.  Fetch/XHR suppression: [_addResourceSpans] on an entry whose
    [initiatorType] is [fetch] or [xmlhttprequest] creates no span and leaves
    the session as it is, whatever the other fields. *)
Theorem fetch_xhr_suppressed host entry resourceUrl startTime duration timeOrigin s :
  strProps entry !! "initiatorType" = Some "fetch"
  ∨ strProps entry !! "initiatorType" = Some "xmlhttprequest" →
  _addResourceSpans host entry resourceUrl startTime duration timeOrigin s = (tt, s, []).
Proof.
  intros Hinit. unfold _addResourceSpans.
  destruct Hinit as [-> | ->]; by rewrite ?bool_decide_eq_true_2 by done.
Qed.


(** C10.  The interaction handler starts no span while no span is active: for
    every batch of entries it returns without a call on the tracing layer. *)
Theorem interaction_handler_needs_active_span host entries s :
  interactionHandler host None entries s = (tt, s, []).
Proof. reflexivity. Qed.

(** C2 (amended).  Double finalize: on a session reset by a first call, a
    second call with the same host writes no measurement other than those
    recomputed during that call ([ttfb.requestTime], [connection.rtt], and
    [fp] or [fcp] from an entry of its own slice), creates no first-input-delay
    span, and sets no LCP or CLS debug attribute. *)
Theorem second_finalize_writes_only_recomputed host span options entries s :
  available host entries →
  let s1 := stateOf (addPerformanceEntries host span options s) in
  let w2 := effectsOf (addPerformanceEntries host span options s1) in
  (∀ k v u, SetMeasurement k v u ∈ w2 →
     k ∈ ["fp"; "fcp"; "connection.rtt"; "ttfb.requestTime"])
  ∧ List.filter isUiActionSpan w2 = []
  ∧ (∀ k v, SetAttribute k v ∈ w2 →
       JS.startsWith k "lcp." || JS.startsWith k "cls.source." = false).
Proof.
  intros Hav s1 w2. subst w2 s1.
  rewrite (stateOf_addPerformanceEntries _ _ _ _ _ Hav).
  set (s1 := {| _performanceCursor := _; _measurements := ∅ |}).
  rewrite (effectsOf_addPerformanceEntries _ _ _ _ _ Hav).
  set (sD := drained host span entries s1).
  assert (∀ k m, _measurements sD !! k = Some m → k = "fp" ∨ k = "fcp") as Hkeys.
  { intros k m Hk. destruct (decide (k = "fp")); [by left|].
    destruct (decide (k = "fcp")); [by right|].
    unfold sD in Hk. by rewrite lookup_drained in Hk. }
  assert (_lcpEntry (stateOf (_trackNavigator host sD)) = None) as Hlcp.
  { rewrite preserves_lcpEntry_trackNavigator. apply lcpEntry_drained. }
  assert (_clsEntry (stateOf (_trackNavigator host sD)) = None) as Hcls.
  { rewrite preserves_clsEntry_trackNavigator. apply clsEntry_drained. }
  assert (∀ ms, effectsOf (_setWebVitalAttributes
                   (set_measurements ms (stateOf (_trackNavigator host sD)))) = []) as Hweb.
  { intros ms. by apply effectsOf_setWebVitalAttributes_none. }
  set (ms1 := withTtfbRequestTime host (withConnectionRtt host (_measurements sD))).
  assert (fidSpan ms1 = []) as Hfid.
  { unfold fidSpan. destruct (ms1 !! "mark.fid") as [m|] eqn:Hm; [|done].
    apply lookup_withTtfbRequestTime in Hm as [?|Hm]; [done|].
    apply lookup_withConnectionRtt in Hm as [?|Hm]; [done|].
    by destruct (Hkeys _ _ Hm). }
  destruct (bool_decide (op span = Some "pageload")).
  - rewrite effectsOf_finalizePageload, measurements_trackNavigator, Hweb.
    fold ms1. rewrite Hfid, app_nil_r. cbn [app].
    split; [|split].
    + intros k v u. rewrite !elem_of_app. intros [Hin|[Hin|[Hin|Hin]]].
      * by apply (emitted _ _ _ _ (emitsOnly_drainEntries _ _ _ _)) in Hin.
      * by apply (emitted _ _ _ _ (emitsOnly_trackNavigator _)) in Hin.
      * apply elem_of_written in Hin as (m & Hm & _).
        apply lookup_gateCls, lookup_withoutFidMark in Hm.
        apply lookup_withTtfbRequestTime in Hm as [->|Hm]; [set_solver|].
        apply lookup_withConnectionRtt in Hm as [->|Hm]; [set_solver|].
        destruct (Hkeys _ _ Hm) as [-> | ->]; set_solver.
      * not_listed Hin.
    + rewrite !List.filter_app.
      rewrite (filter_none _ (effectsOf (drainEntries _ _ _ _ _)))
        by apply entrySpan_not_ui_action, emitsOnly_drainEntries.
      rewrite (filter_none _ (effectsOf (_trackNavigator _ _)))
        by apply navigatorAttribute_not_ui_action, emitsOnly_trackNavigator.
      by rewrite (filter_none _ (_ <$> _)) by apply written_not_ui_action.
    + intros k v. rewrite !elem_of_app. intros [Hin|[Hin|[Hin|Hin]]].
      * by apply (emitted _ _ _ _ (emitsOnly_drainEntries _ _ _ _)) in Hin.
      * apply (emitted _ _ _ _ (emitsOnly_trackNavigator _)) in Hin.
        cbn in Hin. set_unfold. by destruct Hin as [->|[->|[->|[->|[]]]]].
      * by apply list_elem_of_fmap in Hin as ([] & ? & _).
      * set_unfold. by destruct Hin as [[= -> _]|[[= -> _]|[]]].
  - rewrite app_nil_r. split; [|split].
    + intros k v u [Hin|Hin]%elem_of_app.
      * by apply (emitted _ _ _ _ (emitsOnly_drainEntries _ _ _ _)) in Hin.
      * by apply (emitted _ _ _ _ (emitsOnly_trackNavigator _)) in Hin.
    + rewrite !List.filter_app.
      rewrite (filter_none _ (effectsOf (drainEntries _ _ _ _ _)))
        by apply entrySpan_not_ui_action, emitsOnly_drainEntries.
      by rewrite (filter_none _ (effectsOf (_trackNavigator _ _)))
        by apply navigatorAttribute_not_ui_action, emitsOnly_trackNavigator.
    + intros k v [Hin|Hin]%elem_of_app.
      * by apply (emitted _ _ _ _ (emitsOnly_drainEntries _ _ _ _)) in Hin.
      * apply (emitted _ _ _ _ (emitsOnly_trackNavigator _)) in Hin.
        cbn in Hin. set_unfold. by destruct Hin as [->|[->|[->|[->|[]]]]].
Qed.

(** After a call on a host with the Performance API the cursor points at the
    last entry of the log, not past it: the slice of the next call on the same
    log is that last entry (and is empty only for an empty log). *)
Theorem cursor_points_at_last_entry host span options entries s :
  available host entries →
  JS.slice entries (_performanceCursor (stateOf (addPerformanceEntries host span options s)))
  = match last entries with Some entry => [entry] | None => [] end.
Proof.
  intros Hav. rewrite (stateOf_addPerformanceEntries _ _ _ _ _ Hav).
  cbn [_performanceCursor]. unfold JS.slice.
  assert ((Z.of_nat (length entries) - 1) `max` 0 = Z.of_nat (length entries - 1))%Z
    as -> by lia.
  assert ((Z.of_nat (length entries - 1) <? 0)%Z = false) as -> by (apply Z.ltb_ge; lia).
  rewrite Nat2Z.id. apply drop_pred_length.
Qed.

(** A resource entry with a negative duration: every span created for it
    starts at [timeOrigin + startTime] and ends at that start plus 0, so its
    duration is 0 whenever the start is a finite number. *)
Theorem resource_negative_duration_zero host span timeOrigin entry s :
  entryType entry = "resource" →
  (duration entry <? 0)%float = true →
  let start := (timeOrigin + msToSec (startTime entry))%float in
  ∀ a b ctx,
    StartAndEndSpan a b ctx ∈ effectsOf (processEntry host span timeOrigin entry s) →
    a = start ∧ b = (start + 0)%float
    ∧ (is_finite start = true → (b - a)%float = 0%float).
Proof.
  intros Htype Hd start a b ctx. unfold processEntry.
  rewrite (clamped_duration _ Hd), Htype. fold start.
  destruct (_ && _); [set_solver|].
  rewrite !bool_decide_eq_false_2 by done. cbn [orb].
  rewrite bool_decide_eq_true_2 by done.
  unfold _addResourceSpans. destruct (_ || _); [set_solver|].
  cbn [startAndEndSpan emit effectsOf snd].
  intros [= -> -> _]%list_elem_of_singleton.
  split; [done|]. split; [done|]. apply add_zero_sub_self.
Qed.

(** A measure entry with a negative duration whose start is later than the
    navigation's [requestStart] is not pinned: every span created for it starts
    at [timeOrigin + startTime] and ends at that start plus 0, so its duration
    is 0 whenever the start is a finite number. *)
Theorem unpinned_measure_negative_duration_zero host span timeOrigin entry s :
  entryType entry = "measure" →
  (duration entry <? 0)%float = true →
  (requestTimeOf host <? msToSec (startTime entry))%float = true →
  let start := (timeOrigin + msToSec (startTime entry))%float in
  ∀ a b ctx,
    StartAndEndSpan a b ctx ∈ effectsOf (processEntry host span timeOrigin entry s) →
    a = start ∧ b = (start + 0)%float
    ∧ (is_finite start = true → (b - a)%float = 0%float).
Proof.
  intros Htype Hd Hlt start a b ctx. unfold processEntry.
  rewrite (clamped_duration _ Hd), Htype. fold start.
  destruct (_ && _); [by intros ?%elem_of_nil|].
  rewrite !bool_decide_eq_false_2 by done. cbn [orb].
  rewrite bool_decide_eq_true_2 by done.
  unfold _addMeasureSpans. fold (requestTimeOf host).
  rewrite (Math_max_gt _ _ Hlt). fold start. run.
  repeat split_if; rewrite ?app_nil_r;
    intros [= -> -> _]%list_elem_of_singleton;
    (split; [done|]; split; [done|]; apply add_zero_sub_self).
Qed.

(** With an active span, an entry named [click] starts one span with op
    [ui.interaction.click], named after the target, and the span is ended at
    start plus duration when the tracing layer hands one back. *)
Theorem interaction_handler_click_span host active entry s :
  event_name entry = "click" →
  let start :=
    msToSec (JS.toNumber (browserPerformanceTimeOrigin host) + event_startTime entry)%float in
  ∃ spanOptions,
    span_name spanOptions = htmlTreeAsString (event_target entry)
    ∧ span_op spanOptions = "ui.interaction.click"
    ∧ interactionHandler host (Some active) [entry] s =
        (tt, s,
         StartInactiveSpan spanOptions start
         :: (if startInactiveSpan spanOptions start
             then [SpanEnd spanOptions (start + msToSec (event_duration entry))%float]
             else [])).
Proof.
  intros Hname start. unfold interactionHandler. cbn [forEach].
  rewrite bool_decide_eq_true_2 by done. rewrite Hname. fold start.
  match goal with |- context [StartInactiveSpan ?o _] => exists o end.
  split; [reflexivity|]. split; [reflexivity|].
  run. rewrite app_nil_r. by destruct (startInactiveSpan _ _).
Qed.

(** *** Absent capability *)

(** Without the Performance API and its entry log, or with a time origin that
    is undefined, 0 or NaN, [addPerformanceEntries] does nothing: no call on
    the tracing layer, and the session, accumulator included, is left as it
    was. *)
Theorem absent_capability_is_noop host span options s :
  performance_getEntries host = None
  ∨ JS.truthy_opt (browserPerformanceTimeOrigin host) = false →
  addPerformanceEntries host span options s = (tt, s, []).
Proof.
  intros Habsent. apply run_addPerformanceEntries_unavailable.
  intros entries [Hlog Horigin]. destruct Habsent; congruence.
Qed.

(** *** Web-vital callbacks *)

Arguments metric_value {E} _.
Arguments metric_entries {E} _.

(** A report whose batch of entries is empty changes nothing, for each of the
    four callbacks. *)
Theorem vital_report_without_entries_is_ignored host v s :
  _trackCLS {| metric_value := v; metric_entries := [] |} s = (tt, s, [])
  ∧ _trackLCP {| metric_value := v; metric_entries := [] |} s = (tt, s, [])
  ∧ _trackFID host {| metric_value := v; metric_entries := [] |} s = (tt, s, [])
  ∧ _trackTtfb {| metric_value := v; metric_entries := [] |} s = (tt, s, []).
Proof. done. Qed.

Lemma run_trackCLS metric entry s :
  last (metric_entries metric) = Some entry →
  _trackCLS metric s =
  (tt, set_clsEntry (Some entry)
         (set_measurements
            (<["cls" := {| value := metric_value metric; unit_ := "" |}]> (_measurements s)) s),
   []).
Proof. intros Hlast. unfold _trackCLS. rewrite Hlast. by run. Qed.

Lemma run_trackLCP metric entry s :
  last (metric_entries metric) = Some entry →
  _trackLCP metric s =
  (tt, set_lcpEntry (Some entry)
         (set_measurements
            (<["lcp" := {| value := metric_value metric; unit_ := "millisecond" |}]>
               (_measurements s)) s),
   []).
Proof. intros Hlast. unfold _trackLCP. rewrite Hlast. by run. Qed.

Lemma run_trackFID host metric entry s :
  last (metric_entries metric) = Some entry →
  _trackFID host metric s =
  (tt, set_measurements
         (<["mark.fid" := {| value := (timeOriginOf host + msToSec (startTime entry))%float;
                             unit_ := "second" |}]>
            (<["fid" := {| value := metric_value metric; unit_ := "millisecond" |}]>
               (_measurements s))) s,
   []).
Proof. intros Hlast. unfold _trackFID. rewrite Hlast. by run. Qed.

Lemma run_trackTtfb metric entry s :
  last (metric_entries metric) = Some entry →
  _trackTtfb metric s =
  (tt, set_measurements
         (<["ttfb" := {| value := metric_value metric; unit_ := "millisecond" |}]>
            (_measurements s)) s,
   []).
Proof. intros Hlast. unfold _trackTtfb. rewrite Hlast. by run. Qed.

(** Of two reports of the same vital the later one survives: the session after
    both is the session after the later one alone, whenever the later batch
    has an entry. *)
Theorem later_vital_report_wins host s :
  (∀ m1 m2, metric_entries m2 ≠ [] →
     stateOf (_trackCLS m2 (stateOf (_trackCLS m1 s))) = stateOf (_trackCLS m2 s))
  ∧ (∀ m1 m2, metric_entries m2 ≠ [] →
       stateOf (_trackLCP m2 (stateOf (_trackLCP m1 s))) = stateOf (_trackLCP m2 s))
  ∧ (∀ m1 m2, metric_entries m2 ≠ [] →
       stateOf (_trackFID host m2 (stateOf (_trackFID host m1 s)))
       = stateOf (_trackFID host m2 s))
  ∧ (∀ m1 m2, metric_entries m2 ≠ [] →
       stateOf (_trackTtfb m2 (stateOf (_trackTtfb m1 s))) = stateOf (_trackTtfb m2 s)).
Proof.
  split; [|split; [|split]]; intros m1 m2 Hm2;
    (destruct (last (metric_entries m2)) as [e2|] eqn:H2;
       [|by apply last_None in H2]);
    (destruct (last (metric_entries m1)) as [e1|] eqn:H1).
  - rewrite !(run_trackCLS m2 e2) by done. rewrite (run_trackCLS m1 e1) by done.
    destruct s; cbn. by rewrite insert_insert_eq.
  - replace (stateOf (_trackCLS m1 s)) with s; [done|]. unfold _trackCLS. by rewrite H1.
  - rewrite !(run_trackLCP m2 e2) by done. rewrite (run_trackLCP m1 e1) by done.
    destruct s; cbn. by rewrite insert_insert_eq.
  - replace (stateOf (_trackLCP m1 s)) with s; [done|]. unfold _trackLCP. by rewrite H1.
  - rewrite !(run_trackFID _ m2 e2) by done. rewrite (run_trackFID _ m1 e1) by done.
    destruct s; unfold set_measurements; cbn. f_equal. apply map_eq. intros k.
    destruct (decide (k = "mark.fid")) as [->|]; [by rewrite !lookup_insert_eq|].
    destruct (decide (k = "fid")) as [->|]; by simplify_map_eq.
  - replace (stateOf (_trackFID host m1 s)) with s; [done|]. unfold _trackFID. by rewrite H1.
  - rewrite !(run_trackTtfb m2 e2) by done. rewrite (run_trackTtfb m1 e1) by done.
    destruct s; cbn. by rewrite insert_insert_eq.
  - replace (stateOf (_trackTtfb m1 s)) with s; [done|]. unfold _trackTtfb. by rewrite H1.
Qed.

(** *** Sessions between calls *)

Lemma available_dec host :
  (∃ entries, available host entries) ∨ (∀ entries, ¬ available host entries).
Proof.
  destruct (performance_getEntries host) as [entries|] eqn:Hlog;
    [destruct (JS.truthy_opt (browserPerformanceTimeOrigin host)) eqn:Horigin|].
  - left. by exists entries.
  - right. intros ? [_ ?]. congruence.
  - right. intros ? [? _]. congruence.
Qed.

Lemma consistent_reset c :
  (0 ≤ c)%Z →
  consistent {| _performanceCursor := c; _measurements := ∅;
                _lcpEntry := None; _clsEntry := None |}.
Proof.
  intros Hc. unfold consistent; cbn [_measurements _lcpEntry _clsEntry _performanceCursor].
  split; [by rewrite !lookup_empty|].
  split; [rewrite lookup_empty; split; by intros [? ?]|].
  split; [rewrite lookup_empty; split; by intros [? ?]|].
  split; [|done]. intros k. rewrite lookup_empty. by intros [? ?].
Qed.

Ltac other_keys k :=
  rewrite ?(lookup_insert_ne _ k "fid"), ?(lookup_insert_ne _ k "mark.fid"),
    ?(lookup_insert_ne _ k "cls"), ?(lookup_insert_ne _ k "lcp") by done.

Lemma consistent_of_reachable s : reachable s → consistent s.
Proof.
  induction 1 as [|s metric _ IH|s metric _ IH|s host metric _ IH|s metric _ IH
                 |s host span options _ IH].
  - by apply consistent_reset.
  - destruct (last (metric_entries metric)) as [entry|] eqn:Hlast;
      [|unfold _trackCLS; by rewrite Hlast].
    rewrite (run_trackCLS _ _ _ Hlast).
    destruct IH as (Hfid & Hlcp & Hcls & Hkeys & Hcursor).
    destruct s as [c ms l cl]; unfold consistent in *;
      cbn [stateOf fst snd set_clsEntry set_measurements
           _measurements _lcpEntry _clsEntry _performanceCursor] in *.
    other_keys "cls". rewrite lookup_insert_eq.
    split; [done|]. split; [done|]. split; [by split; eauto|]. split; [|done].
    intros k Hk. apply lookup_insert_is_Some in Hk as [<- | [_ Hk]].
    + apply list_elem_of_In; cbn; tauto.
    + by apply Hkeys.
  - destruct (last (metric_entries metric)) as [entry|] eqn:Hlast;
      [|unfold _trackLCP; by rewrite Hlast].
    rewrite (run_trackLCP _ _ _ Hlast).
    destruct IH as (Hfid & Hlcp & Hcls & Hkeys & Hcursor).
    destruct s as [c ms l cl]; unfold consistent in *;
      cbn [stateOf fst snd set_lcpEntry set_measurements
           _measurements _lcpEntry _clsEntry _performanceCursor] in *.
    other_keys "lcp". rewrite lookup_insert_eq.
    split; [done|]. split; [by split; eauto|]. split; [done|]. split; [|done].
    intros k Hk. apply lookup_insert_is_Some in Hk as [<- | [_ Hk]].
    + apply list_elem_of_In; cbn; tauto.
    + by apply Hkeys.
  - destruct (last (metric_entries metric)) as [entry|] eqn:Hlast;
      [|unfold _trackFID; by rewrite Hlast].
    rewrite (run_trackFID _ _ _ _ Hlast).
    destruct IH as (Hfid & Hlcp & Hcls & Hkeys & Hcursor).
    destruct s as [c ms l cl]; unfold consistent in *;
      cbn [stateOf fst snd set_measurements
           _measurements _lcpEntry _clsEntry _performanceCursor] in *.
    rewrite lookup_insert_eq, (lookup_insert_ne _ "mark.fid" "fid") by done.
    rewrite lookup_insert_eq.
    other_keys "mark.fid". other_keys "fid".
    split; [by split; eauto|]. split; [done|]. split; [done|]. split; [|done].
    intros k Hk. apply lookup_insert_is_Some in Hk as [<- | [_ Hk]];
      [apply list_elem_of_In; cbn; tauto|].
    apply lookup_insert_is_Some in Hk as [<- | [_ Hk]];
      [apply list_elem_of_In; cbn; tauto|].
    by apply Hkeys.
  - destruct (last (metric_entries metric)) as [entry|] eqn:Hlast;
      [|unfold _trackTtfb; by rewrite Hlast].
    rewrite (run_trackTtfb _ _ _ Hlast).
    destruct IH as (Hfid & Hlcp & Hcls & Hkeys & Hcursor).
    destruct s as [c ms l cl]; unfold consistent in *;
      cbn [stateOf fst snd set_measurements
           _measurements _lcpEntry _clsEntry _performanceCursor] in *.
    other_keys "ttfb".
    split; [done|]. split; [done|]. split; [done|]. split; [|done].
    intros k Hk. apply lookup_insert_is_Some in Hk as [<- | [_ Hk]];
      [apply list_elem_of_In; cbn; tauto|].
    by apply Hkeys.
  - destruct (available_dec host) as [[entries Hav]|Hno].
    + rewrite (stateOf_addPerformanceEntries _ _ _ _ _ Hav).
      apply consistent_reset. lia.
    + by rewrite run_addPerformanceEntries_unavailable.
Qed.

(** Between calls the accumulator and the retained entries agree: [fid] and
    [mark.fid] are present together, the [lcp] and [cls] measurements are
    present exactly when their entries are retained, no key other than the
    five that the callbacks write is present, and the cursor is not negative. *)
Theorem reachable_consistent s : reachable s → consistent s.
Proof. apply consistent_of_reachable. Qed.

(** *** What a pageload call writes *)

Lemma written_elem_of (ms : gmap string Measurement) k m :
  ms !! k = Some m →
  SetMeasurement k (value m) (unit_ m) ∈ writeMeasurement <$> map_to_list ms.
Proof.
  intros Hk. apply list_elem_of_fmap. exists (k, m). split; [done|].
  by apply elem_of_map_to_list.
Qed.

Lemma SetMeasurement_pageload host span options entries s k v u :
  available host entries →
  op span = Some "pageload" →
  SetMeasurement k v u ∈ effectsOf (addPerformanceEntries host span options s)
  ↔ ∃ m, pageloadMeasurements host span options entries s !! k = Some m
         ∧ value m = v ∧ unit_ m = u.
Proof.
  intros Hav Hop. unfold pageloadMeasurements.
  rewrite (effectsOf_addPerformanceEntries _ _ _ _ _ Hav), Hop.
  rewrite bool_decide_eq_true_2 by done.
  rewrite effectsOf_finalizePageload, measurements_trackNavigator.
  rewrite !elem_of_app. split.
  - intros [Hin|[Hin|[Hin|[Hin|[Hin|Hin]]]]].
    + by apply (emitted _ _ _ _ (emitsOnly_drainEntries _ _ _ _)) in Hin.
    + by apply (emitted _ _ _ _ (emitsOnly_trackNavigator _)) in Hin.
    + unfold fidSpan in Hin. repeat case_match; not_listed Hin.
    + by apply elem_of_written in Hin.
    + not_listed Hin.
    + by apply (emitted _ _ _ _ emitsOnly_setWebVitalAttributes) in Hin.
  - intros (m & Hm & <- & <-). do 3 right. left. by apply written_elem_of.
Qed.

Lemma no_SetMeasurement_otherwise host span options s k v u :
  op span ≠ Some "pageload" →
  SetMeasurement k v u ∉ effectsOf (addPerformanceEntries host span options s).
Proof.
  intros Hop. destruct (available_dec host) as [[entries Hav]|Hno].
  - rewrite (effectsOf_addPerformanceEntries _ _ _ _ _ Hav).
    rewrite bool_decide_eq_false_2, app_nil_r by done.
    intros [Hin|Hin]%elem_of_app.
    + by apply (emitted _ _ _ _ (emitsOnly_drainEntries _ _ _ _)) in Hin.
    + by apply (emitted _ _ _ _ (emitsOnly_trackNavigator _)) in Hin.
  - rewrite run_addPerformanceEntries_unavailable by done. by intros ?%elem_of_nil.
Qed.

Lemma lookup_pageloadMeasurements host span options entries s k m :
  pageloadMeasurements host span options entries s !! k = Some m →
  k = "ttfb.requestTime" ∨ k = "connection.rtt" ∨ k = "fp" ∨ k = "fcp"
  ∨ _measurements s !! k = Some m.
Proof.
  unfold pageloadMeasurements, writtenMeasurements. intros Hk.
  apply lookup_gateCls, lookup_withoutFidMark in Hk.
  apply lookup_withTtfbRequestTime in Hk as [?|Hk]; [tauto|].
  apply lookup_withConnectionRtt in Hk as [?|Hk]; [tauto|].
  destruct (decide (k = "fp")); [tauto|]. destruct (decide (k = "fcp")); [tauto|].
  rewrite lookup_drained in Hk by done. tauto.
Qed.

Lemma lookup_withoutFidMark_alone ms m :
  withoutFidMark ms !! "mark.fid" = Some m → ms !! "fid" = None.
Proof.
  unfold withoutFidMark. destruct (ms !! "mark.fid") eqn:Hmark; [|by rewrite Hmark].
  destruct (ms !! "fid"); [|done]. by rewrite lookup_delete_eq.
Qed.

(** From a session that the module can be in, whatever the host, span and
    options, the measurements written by [addPerformanceEntries] bear one of
    eight names; [mark.fid] is never among them. *)
Theorem written_measurement_names host span options s k v u :
  reachable s →
  SetMeasurement k v u ∈ effectsOf (addPerformanceEntries host span options s) →
  k ∈ ["cls"; "lcp"; "fid"; "ttfb"; "fp"; "fcp"; "connection.rtt"; "ttfb.requestTime"].
Proof.
  intros (Hfid & _ & _ & Hkeys & _)%consistent_of_reachable Hin.
  destruct (decide (op span = Some "pageload")) as [Hop|Hop];
    [|by apply no_SetMeasurement_otherwise in Hin].
  destruct (available_dec host) as [[entries Hav]|Hno];
    [|rewrite run_addPerformanceEntries_unavailable in Hin by done;
      by apply elem_of_nil in Hin].
  apply (SetMeasurement_pageload _ _ _ _ _ _ _ _ Hav Hop) in Hin as (m & Hm & _).
  assert (k ≠ "mark.fid") as Hmark.
  { intros ->. unfold pageloadMeasurements, writtenMeasurements in Hm.
    apply lookup_gateCls in Hm. pose proof (lookup_withoutFidMark_alone _ _ Hm) as Hnofid.
    apply lookup_withoutFidMark in Hm.
    rewrite lookup_withTtfbRequestTime_ne, lookup_withConnectionRtt_ne,
      lookup_drained in Hm, Hnofid by done.
    destruct Hfid as [_ Hfid]. destruct Hfid as [? Hsome]; [by eexists|]. congruence. }
  apply lookup_pageloadMeasurements in Hm as [->|[->|[->|[->|Hm]]]];
    try (apply list_elem_of_In; cbn; tauto).
  assert (k ∈ ["cls"; "lcp"; "fid"; "mark.fid"; "ttfb"]) as Hk by (apply Hkeys; eauto).
  apply list_elem_of_In in Hk. apply list_elem_of_In. cbn in *. intuition.
Qed.

Lemma filter_ui_action_pageload host span options entries s :
  available host entries →
  op span = Some "pageload" →
  List.filter isUiActionSpan (effectsOf (addPerformanceEntries host span options s))
  = fidSpan (withTtfbRequestTime host
               (withConnectionRtt host (_measurements (drained host span entries s)))).
Proof.
  intros Hav Hop.
  rewrite (effectsOf_addPerformanceEntries _ _ _ _ _ Hav), Hop.
  rewrite bool_decide_eq_true_2 by done.
  rewrite effectsOf_finalizePageload, measurements_trackNavigator.
  rewrite !List.filter_app.
  rewrite (filter_none _ (effectsOf (drainEntries _ _ _ _ _)))
    by apply entrySpan_not_ui_action, emitsOnly_drainEntries.
  rewrite (filter_none _ (effectsOf (_trackNavigator _ _)))
    by apply navigatorAttribute_not_ui_action, emitsOnly_trackNavigator.
  rewrite (filter_none _ (_ <$> _)) by apply written_not_ui_action.
  rewrite (filter_none _ (effectsOf (_setWebVitalAttributes _)))
    by apply webVitalAttribute_not_ui_action, emitsOnly_setWebVitalAttributes.
  cbn [List.filter isUiActionSpan app]. rewrite app_nil_r.
  unfold fidSpan. repeat case_match; done.
Qed.

(** From a session that the module can be in, on a host with the Performance
    API and a pageload span, the first-input-delay span and the [fid]
    measurement come together: the span is created exactly when a [fid]
    measurement is written. *)
Theorem fid_span_with_fid_measurement host span options entries s :
  reachable s →
  available host entries →
  op span = Some "pageload" →
  let w := effectsOf (addPerformanceEntries host span options s) in
  (∃ v u, SetMeasurement "fid" v u ∈ w) ↔ List.filter isUiActionSpan w ≠ [].
Proof.
  intros (Hfid & _)%consistent_of_reachable Hav Hop w. subst w.
  rewrite (filter_ui_action_pageload _ _ _ _ _ Hav Hop).
  assert (∀ k, k = "fid" ∨ k = "mark.fid" →
            withTtfbRequestTime host
              (withConnectionRtt host (_measurements (drained host span entries s))) !! k
            = _measurements s !! k) as Hsame.
  { intros k [-> | ->];
      by rewrite lookup_withTtfbRequestTime_ne, lookup_withConnectionRtt_ne,
        lookup_drained. }
  split.
  - intros (v & u & (m & Hm & _)%(SetMeasurement_pageload _ _ _ _ _ _ _ _ Hav Hop)).
    unfold pageloadMeasurements, writtenMeasurements in Hm.
    apply lookup_gateCls, lookup_withoutFidMark in Hm.
    unfold fidSpan. rewrite (Hsame "fid") in Hm by tauto.
    rewrite !Hsame by tauto. rewrite Hm.
    destruct Hfid as [Hfid _]. destruct Hfid as [? ->]; [by eexists|]. done.
  - unfold fidSpan. rewrite !Hsame by tauto.
    destruct (_measurements s !! "mark.fid") as [fidMark|]; [|done].
    destruct (_measurements s !! "fid") as [fid|] eqn:Hfid'; [|done]. intros _.
    exists (value fid), (unit_ fid).
    apply (SetMeasurement_pageload _ _ _ _ _ _ _ _ Hav Hop). exists fid.
    split; [|done]. unfold pageloadMeasurements, writtenMeasurements.
    rewrite lookup_gateCls_ne, lookup_withoutFidMark_ne by done.
    rewrite Hsame by tauto. done.
Qed.

(** *** The observers of long tasks, long animation frames and interactions *)

Lemma run_forEach_stateless {A} (l : list A) (f : A → M unit) (g : A → list Effect) :
  (∀ x s, f x s = (tt, s, g x)) → ∀ s, forEach l f s = (tt, s, concat (g <$> l)).
Proof.
  intros Hf. induction l as [|x l IH]; intros s; simpl; [done|].
  rewrite run_bind, Hf. unfold valueOf, stateOf, effectsOf; simpl.
  by rewrite IH.
Qed.

Lemma elem_of_concat {A} (x : A) (ls : list (list A)) :
  x ∈ concat ls → ∃ l, x ∈ l ∧ l ∈ ls.
Proof.
  induction ls as [|l ls IH]; cbn [concat]; [by intros ?%elem_of_nil|].
  intros [Hx|Hx]%elem_of_app.
  - exists l. split; [done|]. apply elem_of_cons. by left.
  - destruct (IH Hx) as (l' & ? & ?). exists l'. split; [done|].
    apply elem_of_cons. by right.
Qed.

Lemma startedSpansOf_app w1 w2 :
  startedSpansOf (w1 ++ w2) = startedSpansOf w1 ++ startedSpansOf w2.
Proof. apply omap_app. Qed.

Lemma run_longTaskHandler host active entries s :
  longTaskHandler host (Some active) entries s
  = (tt, s, concat (longTaskTrace host <$> entries)).
Proof.
  unfold longTaskHandler. apply run_forEach_stateless. intros entry s'.
  unfold longTaskTrace. run. by destruct (startInactiveSpan _ _); rewrite ?app_nil_r.
Qed.

(** The long-task callback leaves the session alone; without an active span it
    does nothing, and with one it starts one span per entry, in the order of
    the entries, each named [Main UI thread blocked] with op [ui.long-task]
    and starting at the entry's start counted from the time origin; every
    span that is ended ends one entry's duration after some entry's start. *)
Theorem long_task_spans host active entries s :
  longTaskHandler host None entries s = (tt, s, [])
  ∧ stateOf (longTaskHandler host (Some active) entries s) = s
  ∧ startedSpansOf (effectsOf (longTaskHandler host (Some active) entries s))
    = (λ entry,
         (msToSec (JS.toNumber (browserPerformanceTimeOrigin host) + startTime entry)%float,
          "Main UI thread blocked", "ui.long-task")) <$> entries
  ∧ ∀ o t, SpanEnd o t ∈ effectsOf (longTaskHandler host (Some active) entries s) →
      ∃ entry, entry ∈ entries
        ∧ t = (msToSec (JS.toNumber (browserPerformanceTimeOrigin host) + startTime entry)
               + msToSec (duration entry))%float.
Proof.
  split; [done|]. rewrite run_longTaskHandler. split; [done|].
  cbn [effectsOf fst snd]. split.
  - induction entries as [|entry entries IH]; [done|].
    cbn [fmap list_fmap concat]. rewrite startedSpansOf_app, IH.
    unfold longTaskTrace. by destruct (startInactiveSpan _ _).
  - intros o t Hin. apply elem_of_concat in Hin as (w & Hin & Hw).
    apply list_elem_of_fmap in Hw as (entry & -> & Hentry).
    exists entry. split; [done|]. unfold longTaskTrace in Hin.
    apply elem_of_cons in Hin as [Hin|Hin]; [discriminate Hin|].
    destruct (startInactiveSpan _ _); [|by apply elem_of_nil in Hin].
    apply list_elem_of_singleton in Hin. by injection Hin as _ ->.
Qed.

Lemma run_longAnimationFrameHandler host active entries s :
  longAnimationFrameHandler host (Some active) entries s
  = (tt, s, concat (loafTrace host <$> entries)).
Proof.
  unfold longAnimationFrameHandler. apply run_forEach_stateless. intros entry s'.
  unfold loafTrace. destruct (head (scripts entry)) as [initialScript|]; [|done].
  unfold loafAttributes. run. by destruct (startInactiveSpan _ _); rewrite ?app_nil_r.
Qed.

(** The long-animation-frame observer starts a span for the frames that have
    a script, and for no other: the started spans are, in order, those of the
    entries whose [scripts] is not empty. *)
Theorem long_animation_frame_spans host active entries s :
  stateOf (longAnimationFrameHandler host (Some active) entries s) = s
  ∧ startedSpansOf (effectsOf (longAnimationFrameHandler host (Some active) entries s))
    = (λ entry,
         (msToSec (JS.toNumber (browserPerformanceTimeOrigin host) + loaf_startTime entry)%float,
          "Main UI thread blocked", "ui.long-animation-frame"))
      <$> List.filter (λ entry, match scripts entry with [] => false | _ => true end) entries.
Proof.
  rewrite run_longAnimationFrameHandler. split; [done|]. cbn [effectsOf fst snd].
  induction entries as [|entry entries IH]; [done|].
  cbn [fmap list_fmap concat List.filter]. rewrite startedSpansOf_app, IH.
  unfold loafTrace. destruct (scripts entry) as [|script rest]; [done|].
  cbn [head]. by destruct (startInactiveSpan _ _).
Qed.

Lemma loafAttributes_shape script :
  loafAttributes script !! SEMANTIC_ATTRIBUTE_SENTRY_ORIGIN
    = Some (AStr "auto.ui.browser.metrics")
  ∧ loafAttributes script !! "browser.script.invoker" = Some (AStr (invoker script))
  ∧ loafAttributes script !! "browser.script.invoker_type" = Some (AStr (invokerType script))
  ∧ loafAttributes script !! "code.filepath" ≠ Some (AStr "")
  ∧ loafAttributes script !! "code.function" ≠ Some (AStr "")
  ∧ ∀ v, loafAttributes script !! "browser.script.source_char_position" = Some (ANum v) →
      (v =? -1)%float = false.
Proof.
  unfold loafAttributes, JS.strict_neq, SEMANTIC_ATTRIBUTE_SENTRY_ORIGIN.
  destruct (String.eqb_spec (sourceURL script) "") as [_|Hurl];
    destruct (String.eqb_spec (sourceFunctionName script) "") as [_|Hfun];
    destruct (sourceCharPosition script =? -1)%float eqn:Hpos;
    cbn [negb]; repeat split; try intros v; simplify_map_eq; congruence.
Qed.

(** Every span that the long-animation-frame observer starts carries the
    origin and the invoker and invoker type of the first script of some
    entry; its [code.filepath] and [code.function] are never the empty
    string, and its [browser.script.source_char_position] is never [-1]. *)
Theorem long_animation_frame_attributes host active entries s :
  Forall (λ o,
            span_attributes o !! SEMANTIC_ATTRIBUTE_SENTRY_ORIGIN
              = Some (AStr "auto.ui.browser.metrics")
            ∧ (∃ entry script,
                 entry ∈ entries ∧ scripts entry !! 0%nat = Some script
                 ∧ span_attributes o !! "browser.script.invoker"
                   = Some (AStr (invoker script))
                 ∧ span_attributes o !! "browser.script.invoker_type"
                   = Some (AStr (invokerType script)))
            ∧ span_attributes o !! "code.filepath" ≠ Some (AStr "")
            ∧ span_attributes o !! "code.function" ≠ Some (AStr "")
            ∧ ∀ v, span_attributes o !! "browser.script.source_char_position"
                     = Some (ANum v) → (v =? -1)%float = false)
    (startedSpanOptionsOf
       (effectsOf (longAnimationFrameHandler host (Some active) entries s))).
Proof.
  rewrite run_longAnimationFrameHandler. cbn [effectsOf fst snd].
  apply Forall_forall. intros o Ho.
  apply list_elem_of_omap in Ho as (e & He & Ho).
  apply elem_of_concat in He as (w & He & Hw).
  apply list_elem_of_fmap in Hw as (entry & -> & Hentry).
  unfold loafTrace in He. destruct (head (scripts entry)) as [script|] eqn:Hscript;
    [|by apply elem_of_nil in He].
  assert (o = {| span_name := "Main UI thread blocked";
                 span_op := "ui.long-animation-frame";
                 span_attributes := loafAttributes script |}) as ->.
  { apply elem_of_cons in He as [->|He]; [by injection Ho|].
    destruct (startInactiveSpan _ _); [|by apply elem_of_nil in He].
    apply list_elem_of_singleton in He as ->. discriminate Ho. }
  cbn [span_attributes].
  destruct (loafAttributes_shape script) as (Horigin & Hinvoker & Htype & Hpath & Hfun & Hpos).
  split; [done|]. split; [|done].
  exists entry, script. rewrite <- head_lookup. done.
Qed.

Lemma run_interactionHandler host active entries s :
  interactionHandler host (Some active) entries s
  = (tt, s, concat (interactionTrace host <$> entries)).
Proof.
  unfold interactionHandler. apply run_forEach_stateless. intros entry s'.
  unfold interactionTrace. destruct (bool_decide (event_name entry = "click")); [|done].
  run. by destruct (startInactiveSpan _ _); rewrite ?app_nil_r.
Qed.

(** The interaction callback starts a span for the click entries and for no
    other: the started spans are, in order, those of the entries named
    [click], each named after the entry's target, with op
    [ui.interaction.click]; the session is left alone. *)
Theorem interaction_spans_for_clicks_only host active entries s :
  stateOf (interactionHandler host (Some active) entries s) = s
  ∧ startedSpansOf (effectsOf (interactionHandler host (Some active) entries s))
    = (λ entry,
         (msToSec (JS.toNumber (browserPerformanceTimeOrigin host)
                   + event_startTime entry)%float,
          htmlTreeAsString (event_target entry), "ui.interaction.click"))
      <$> List.filter (λ entry, bool_decide (event_name entry = "click")) entries.
Proof.
  rewrite run_interactionHandler. split; [done|]. cbn [effectsOf fst snd].
  induction entries as [|entry entries IH]; [done|].
  cbn [fmap list_fmap concat List.filter]. rewrite startedSpansOf_app, IH.
  unfold interactionTrace. case_bool_decide as Hname; [|done].
  rewrite Hname. by destruct (startInactiveSpan _ _).
Qed.

(** *** Spans of a navigation entry *)

Lemma emitsAtMost_ret P : emitsAtMost 0 P (mret tt).
Proof. intros s. split; [done|]. split; [cbn; lia|constructor]. Qed.

Lemma emitsAtMost_seq n1 n2 P (m1 m2 : M unit) :
  emitsAtMost n1 P m1 → emitsAtMost n2 P m2 → emitsAtMost (n1 + n2) P (m1 ;; m2).
Proof.
  intros H1 H2 s. rewrite run_bind. cbn [valueOf stateOf effectsOf fst snd].
  destruct (H1 s) as (-> & L1 & F1). destruct (H2 s) as (-> & L2 & F2).
  split; [done|]. split; [rewrite length_app; lia|by apply Forall_app].
Qed.

Lemma emitsAtMost_navigationTiming P entry event timeOrigin name' eventEnd :
  (∀ a b, P (StartAndEndSpan a b
               {| span_op := "browser." +:+ JS.or_else name' event;
                  span_name := name entry;
                  span_attributes :=
                    {[ SEMANTIC_ATTRIBUTE_SENTRY_ORIGIN :=
                         AStr "auto.ui.browser.metrics" ]} |})) →
  emitsAtMost 1 P (_addPerformanceNavigationTiming entry event timeOrigin name' eventEnd).
Proof.
  intros HP s. unfold _addPerformanceNavigationTiming.
  destruct (negb _ || negb _).
  - cbn. split; [done|]. split; [lia|constructor].
  - unfold startAndEndSpan, emit. cbn. split; [done|]. split; [lia|].
    constructor; [apply HP|constructor].
Qed.

Lemma emitsAtMost_addPerformanceNavigationTiming entry event timeOrigin name' eventEnd :
  "browser." +:+ JS.or_else name' event ∈ navigationSpanOps →
  emitsAtMost 1 (isNavigationTimingSpan entry)
    (_addPerformanceNavigationTiming entry event timeOrigin name' eventEnd).
Proof. intros Hop. apply emitsAtMost_navigationTiming. intros a b. by cbn. Qed.

Lemma emitsAtMost_addRequest entry timeOrigin :
  emitsAtMost 2 (isNavigationTimingSpan entry) (_addRequest entry timeOrigin).
Proof.
  intros s. unfold _addRequest. rewrite run_when.
  destruct (JS.truthy_opt _).
  - rewrite run_bind. unfold startAndEndSpan, emit. cbn.
    split; [done|]. split; [lia|].
    constructor; [|constructor; [|constructor]];
      (cbn; split; [done|]; split; [|done]);
      unfold navigationSpanOps; apply list_elem_of_In; cbn; tauto.
  - cbn. split; [done|]. split; [lia|constructor].
Qed.

(** Whatever its fields, a navigation entry gives at most ten spans, each
    named after the entry, with the origin [auto.ui.browser.metrics] as its
    only attribute and one of the ten [browser.*] ops; the session is left
    alone. *)
Theorem navigation_entry_spans entry timeOrigin s :
  stateOf (_addNavigationSpans entry timeOrigin s) = s
  ∧ length (effectsOf (_addNavigationSpans entry timeOrigin s)) ≤ 10
  ∧ Forall (isNavigationTimingSpan entry) (effectsOf (_addNavigationSpans entry timeOrigin s)).
Proof.
  revert s. change (emitsAtMost 10 (isNavigationTimingSpan entry)
                      (_addNavigationSpans entry timeOrigin)).
  unfold _addNavigationSpans. cbn [forEach].
  apply (emitsAtMost_seq 5 5).
  - apply (emitsAtMost_seq 1 4); [|apply (emitsAtMost_seq 1 3);
      [|apply (emitsAtMost_seq 1 2); [|apply (emitsAtMost_seq 1 1);
        [|apply (emitsAtMost_seq 1 0); [|apply emitsAtMost_ret]]]]];
      apply emitsAtMost_addPerformanceNavigationTiming, list_elem_of_In; cbn; tauto.
  - apply (emitsAtMost_seq 1 4); [|apply (emitsAtMost_seq 1 3);
      [|apply (emitsAtMost_seq 1 2); [|apply emitsAtMost_addRequest]]];
      apply emitsAtMost_addPerformanceNavigationTiming, list_elem_of_In; cbn; tauto.
Qed.

(** While the response of the document is under way, its [responseEnd] is 0
    (or absent): the navigation entry then gives no request span and no
    response span, and at most eight spans in all. *)
Theorem unfinished_response_has_no_request_span entry timeOrigin s :
  JS.truthy_opt (numProps entry !! "responseEnd") = false →
  length (effectsOf (_addNavigationSpans entry timeOrigin s)) ≤ 8
  ∧ Forall (λ e, match e with
                 | StartAndEndSpan _ _ ctx =>
                     span_op ctx ≠ "browser.request" ∧ span_op ctx ≠ "browser.response"
                 | _ => False
                 end)
      (effectsOf (_addNavigationSpans entry timeOrigin s)).
Proof.
  intros Hend.
  match goal with |- _ ∧ Forall ?P _ =>
    cut (emitsAtMost 8 P (_addNavigationSpans entry timeOrigin));
      [intros Hspans; destruct (Hspans s) as (_ & ? & ?); done|]
  end.
  unfold _addNavigationSpans. cbn [forEach].
  apply (emitsAtMost_seq 5 3).
  - apply (emitsAtMost_seq 1 4); [|apply (emitsAtMost_seq 1 3);
      [|apply (emitsAtMost_seq 1 2); [|apply (emitsAtMost_seq 1 1);
        [|apply (emitsAtMost_seq 1 0); [|apply emitsAtMost_ret]]]]];
      apply emitsAtMost_navigationTiming; intros a b; cbn; split; discriminate.
  - apply (emitsAtMost_seq 1 2); [|apply (emitsAtMost_seq 1 1);
      [|apply (emitsAtMost_seq 1 0)]].
    1-3: apply emitsAtMost_navigationTiming; intros a b; cbn; split; discriminate.
    intros s'. unfold _addRequest. rewrite Hend. cbn.
    split; [done|]. split; [lia|constructor].
Qed.

(** *** Attributes of a resource span *)

Lemma lookup_setResourceEntrySizeData_ne attributes entry key dataKey k :
  k ≠ dataKey → setResourceEntrySizeData attributes entry key dataKey !! k = attributes !! k.
Proof.
  intros Hk. unfold setResourceEntrySizeData.
  destruct (numProps entry !! key) as [x|]; [|done].
  destruct (x <? MAX_INT_AS_BYTES)%float; [|done]. by rewrite lookup_insert_ne.
Qed.

Lemma lookup_setResourceEntrySizeData_eq attributes entry key dataKey :
  attributes !! dataKey = None →
  setResourceEntrySizeData attributes entry key dataKey !! dataKey
  = x ← numProps entry !! key;
    if (x <? MAX_INT_AS_BYTES)%float then Some (ANum x) else None.
Proof.
  intros Hk. unfold setResourceEntrySizeData.
  destruct (numProps entry !! key) as [x|]; [|done]. cbn.
  destruct (x <? MAX_INT_AS_BYTES)%float; [|done]. by rewrite lookup_insert_eq.
Qed.

(** A resource entry that is not a fetch or an XHR gives exactly one span,
    from [timeOrigin + startTime] for [duration], and leaves the session
    alone.  The span always carries the origin and [url.same_origin]; a size
    attribute is present exactly when the entry has the field and it is below
    [MAX_INT_AS_BYTES], with the field as its value; the delivery type is
    present exactly when the entry has one, with the empty string reported as
    [default]; and the op is [resource.other] unless the entry has a
    non-empty initiator type. *)
Theorem resource_span_attributes host entry resourceUrl startTime duration timeOrigin s :
  strProps entry !! "initiatorType" ≠ Some "xmlhttprequest" →
  strProps entry !! "initiatorType" ≠ Some "fetch" →
  ∃ ctx,
    _addResourceSpans host entry resourceUrl startTime duration timeOrigin s
    = (tt, s, [StartAndEndSpan (timeOrigin + startTime)%float
                 (timeOrigin + startTime + duration)%float ctx])
    ∧ span_attributes ctx !! SEMANTIC_ATTRIBUTE_SENTRY_ORIGIN
      = Some (AStr "auto.resource.browser.metrics")
    ∧ span_attributes ctx !! "url.same_origin"
      = Some (ABool (JS.includes resourceUrl (location_origin host)))
    ∧ (∀ key dataKey, (key, dataKey) ∈ resourceSizeAttributes →
         span_attributes ctx !! dataKey
         = x ← numProps entry !! key;
           if (x <? MAX_INT_AS_BYTES)%float then Some (ANum x) else None)
    ∧ span_attributes ctx !! "http.response_delivery_type"
      = (λ deliveryType, AStr (if String.eqb deliveryType "" then "default" else deliveryType))
        <$> strProps entry !! "deliveryType"
    ∧ span_op ctx
      = match strProps entry !! "initiatorType" with
        | Some initiatorType =>
            if String.eqb initiatorType "" then "resource.other"
            else "resource." +:+ initiatorType
        | None => "resource.other"
        end.
Proof.
  intros Hxhr Hfetch. unfold _addResourceSpans.
  rewrite !bool_decide_eq_false_2 by done. cbn [orb].
  unfold startAndEndSpan, emit. eexists. split; [reflexivity|].
  cbn [span_attributes span_op]. unfold SEMANTIC_ATTRIBUTE_SENTRY_ORIGIN.
  destruct (strProps entry !! "deliveryType") as [deliveryType|];
    destruct (strProps entry !! "renderBlockingStatus") as [status|];
    destruct (JS.truthy_str (parseUrl resourceUrl).1);
    destruct (JS.truthy_str (parseUrl resourceUrl).2);
    (split; [|split; [|split; [|split]]]).
  all: try (intros key dataKey Hkey; apply list_elem_of_In in Hkey; cbn in Hkey;
            destruct Hkey as [[= <- <-]|[[= <- <-]|[[= <- <-]|[]]]]).
  all: repeat first
         [ rewrite lookup_insert_eq
         | rewrite lookup_insert_ne by done
         | rewrite lookup_setResourceEntrySizeData_ne by done
         | rewrite lookup_setResourceEntrySizeData_eq
             by (rewrite ?lookup_setResourceEntrySizeData_ne by done;
                 by rewrite lookup_singleton_ne)
         | rewrite lookup_singleton_eq ].
  all: try done.
  all: try (cbn; unfold JS.or_else; by destruct (String.eqb _ _)).
  all: try (destruct (strProps entry !! "initiatorType") as [initiatorType|];
            cbn; [by destruct (String.eqb _ _)|done]).
Qed.

(** *** Measurements and the first-input-delay span on a pageload *)

(** On a pageload, a measurement held by the accumulator once the entries are
    drained is written with its value and unit, unless it is one of the
    derived ones ([ttfb.requestTime], [connection.rtt]) or [mark.fid]; for
    [cls] this needs [fcp] to be present and the option to be set. *)
Theorem accumulated_measurements_are_written host span options entries s k m :
  available host entries →
  op span = Some "pageload" →
  k ∉ ["mark.fid"; "ttfb.requestTime"; "connection.rtt"] →
  (k = "cls" →
   is_Some (_measurements (drained host span entries s) !! "fcp")
   ∧ recordClsOnPageloadSpan options = true) →
  _measurements (drained host span entries s) !! k = Some m →
  SetMeasurement k (value m) (unit_ m)
  ∈ effectsOf (addPerformanceEntries host span options s).
Proof.
  intros Hav Hop Hk Hcls Hm.
  assert (k ≠ "mark.fid" ∧ k ≠ "ttfb.requestTime" ∧ k ≠ "connection.rtt")
    as (Hmark & Hreq & Hrtt).
  { repeat split; intros ->; apply Hk, list_elem_of_In; cbn; tauto. }
  apply (SetMeasurement_pageload _ _ _ _ _ _ _ _ Hav Hop). exists m. split; [|done].
  unfold pageloadMeasurements, writtenMeasurements.
  destruct (decide (k = "cls")) as [->|Hne].
  - destruct (Hcls eq_refl) as [Hfcp Hrecord]. unfold gateCls.
    rewrite lookup_withoutFidMark_ne, lookup_withTtfbRequestTime_ne,
      lookup_withConnectionRtt_ne by done.
    rewrite bool_decide_eq_true_2, Hrecord by done. cbn [negb orb].
    by rewrite lookup_withoutFidMark_ne, lookup_withTtfbRequestTime_ne,
      lookup_withConnectionRtt_ne by done.
  - rewrite lookup_gateCls_ne by done.
    by rewrite lookup_withoutFidMark_ne, lookup_withTtfbRequestTime_ne,
      lookup_withConnectionRtt_ne by done.
Qed.


(** A first-input-delay report followed by a pageload call gives the span
    named [first input delay]: it starts at the time origin plus the start
    of the reported entry and lasts the reported value; the [fid] measurement
    is written with the reported value, and [mark.fid] is not written. *)
Theorem fid_report_becomes_span host span options entries s metric entry :
  available host entries →
  op span = Some "pageload" →
  last (metric_entries metric) = Some entry →
  let start := (timeOriginOf host + msToSec (startTime entry))%float in
  let w := effectsOf (addPerformanceEntries host span options
                        (stateOf (_trackFID host metric s))) in
  List.filter isUiActionSpan w
  = [StartAndEndSpan start (start + msToSec (metric_value metric))%float
       {| span_name := "first input delay"; span_op := "ui.action";
          span_attributes :=
            {[ SEMANTIC_ATTRIBUTE_SENTRY_ORIGIN := AStr "auto.ui.browser.metrics" ]} |}]
  ∧ SetMeasurement "fid" (metric_value metric) "millisecond" ∈ w
  ∧ ∀ v u, SetMeasurement "mark.fid" v u ∉ w.
Proof.
  intros Hav Hop Hlast start w. subst w.
  rewrite (run_trackFID _ _ _ _ Hlast). cbn [stateOf fst snd].
  match goal with |- context [addPerformanceEntries _ _ _ ?s0] => set (s' := s0) end.
  assert (_measurements s' !! "fid"
          = Some {| value := metric_value metric; unit_ := "millisecond" |}) as Hfid.
  { subst s'. destruct s. unfold set_measurements. cbn.
    rewrite lookup_insert_ne by done. by rewrite lookup_insert_eq. }
  assert (_measurements s' !! "mark.fid"
          = Some {| value := start; unit_ := "second" |}) as Hmark.
  { subst s'. destruct s. unfold set_measurements. cbn. by rewrite lookup_insert_eq. }
  clearbody s'.
  assert (∀ k m, _measurements s' !! k = Some m → k ≠ "fp" → k ≠ "fcp" →
            k ≠ "ttfb.requestTime" → k ≠ "connection.rtt" →
            withTtfbRequestTime host
              (withConnectionRtt host (_measurements (drained host span entries s'))) !! k
            = Some m) as Hsame.
  { intros k m Hm ????.
    by rewrite lookup_withTtfbRequestTime_ne, lookup_withConnectionRtt_ne,
      lookup_drained. }
  split; [|split].
  - rewrite (filter_ui_action_pageload _ _ _ _ _ Hav Hop). unfold fidSpan.
    by rewrite (Hsame _ _ Hmark), (Hsame _ _ Hfid).
  - apply (SetMeasurement_pageload _ _ _ _ _ _ _ _ Hav Hop).
    exists {| value := metric_value metric; unit_ := "millisecond" |}. split; [|done].
    unfold pageloadMeasurements, writtenMeasurements.
    rewrite lookup_gateCls_ne, lookup_withoutFidMark_ne by done.
    by rewrite (Hsame _ _ Hfid).
  - intros v u (m & Hm & _)%(SetMeasurement_pageload _ _ _ _ _ _ _ _ Hav Hop).
    unfold pageloadMeasurements, writtenMeasurements in Hm.
    apply lookup_gateCls, lookup_withoutFidMark_alone in Hm.
    by rewrite (Hsame _ _ Hfid) in Hm.
Qed.

(** *** Attributes set on a pageload *)

Lemma run_seq {A} (m1 : M unit) (m2 : M A) s w1 :
  m1 s = (tt, s, w1) →
  (m1 ;; m2) s = (valueOf (m2 s), stateOf (m2 s), w1 ++ effectsOf (m2 s)).
Proof. intros H1. by rewrite run_bind, H1. Qed.

Lemma run_when_setAttribute (b : bool) k v s :
  when b (setAttribute k v) s = (tt, s, if b then [SetAttribute k v] else []).
Proof. by destruct b. Qed.

Lemma run_setWebVitalAttributes s :
  _setWebVitalAttributes s = (tt, s, lcpTrace (_lcpEntry s) ++ clsSourceTrace (_clsEntry s)).
Proof.
  assert (∀ srcs : list (option Element),
            forEach (imap (λ index source, (index, source)) srcs)
              (λ '(index, source),
                 setAttribute ("cls.source." +:+ pretty (index + 1)%nat)
                   (AStr (htmlTreeAsString source))) s
            = (tt, s, imap (λ index source,
                              SetAttribute ("cls.source." +:+ pretty (index + 1)%nat)
                                (AStr (htmlTreeAsString source))) srcs)) as Hsources.
  { intros srcs.
    rewrite (run_forEach_emits _ _
               (λ '(index, source),
                  SetAttribute ("cls.source." +:+ pretty (index + 1)%nat)
                    (AStr (htmlTreeAsString source)))) by (by intros [??] ?).
    f_equal. by rewrite fmap_imap. }
  assert ((clsEntry ← gets _clsEntry ;
           match clsEntry with
           | Some cls =>
               match sources cls with
               | Some srcs =>
                   forEach (imap (λ index source, (index, source)) srcs)
                     (λ '(index, source),
                        setAttribute ("cls.source." +:+ pretty (index + 1)%nat)
                          (AStr (htmlTreeAsString source)))
               | None => mret tt
               end
           | None => mret tt
           end) s = (tt, s, clsSourceTrace (_clsEntry s))) as Hcls.
  { rewrite run_bind. cbn [gets valueOf stateOf effectsOf fst snd app].
    unfold clsSourceTrace. destruct (_clsEntry s) as [cls|]; [|done].
    destruct (sources cls) as [srcs|]; [|done]. by rewrite Hsources. }
  unfold _setWebVitalAttributes. rewrite run_bind.
  cbn [gets valueOf stateOf effectsOf fst snd app]. unfold lcpTrace.
  destruct (_lcpEntry s) as [lcp|].
  - erewrite run_seq; [rewrite Hcls; reflexivity|].
    erewrite run_seq by apply run_when_setAttribute.
    erewrite run_seq by apply run_when_setAttribute.
    erewrite run_seq by apply run_when_setAttribute.
    reflexivity.
  - erewrite run_seq by reflexivity. by rewrite Hcls.
Qed.

Lemma attributesSetOf_app w1 w2 :
  attributesSetOf (w1 ++ w2) = attributesSetOf w1 ++ attributesSetOf w2.
Proof. apply omap_app. Qed.

Lemma attributesSetOf_none (P : Effect → Prop) w :
  (∀ e, P e → match e with SetAttribute _ _ => False | _ => True end) →
  Forall P w → attributesSetOf w = [].
Proof.
  intros HP Hw. induction Hw as [|e w He _ IH]; [done|].
  cbn. specialize (HP e He). destruct e; try done.
Qed.

Lemma effectsOf_seq_independent (m1 m2 : M unit) :
  (∀ s1 s2, effectsOf (m1 s1) = effectsOf (m1 s2)) →
  (∀ s1 s2, effectsOf (m2 s1) = effectsOf (m2 s2)) →
  ∀ s1 s2, effectsOf ((m1 ;; m2) s1) = effectsOf ((m1 ;; m2) s2).
Proof. intros H1 H2 s1 s2. rewrite !effectsOf_bind. f_equal; [apply H1|apply H2]. Qed.

Lemma effectsOf_when_independent (b : bool) (m : M unit) :
  (∀ s1 s2, effectsOf (m s1) = effectsOf (m s2)) →
  ∀ s1 s2, effectsOf (when b m s1) = effectsOf (when b m s2).
Proof. by destruct b. Qed.

Lemma effectsOf_trackNavigator host s1 s2 :
  effectsOf (_trackNavigator host s1) = effectsOf (_trackNavigator host s2).
Proof.
  revert s1 s2. unfold _trackNavigator.
  destruct (navigator host) as [nav|]; [|done].
  apply effectsOf_seq_independent.
  - destruct (connection nav) as [conn|]; [|done].
    repeat first [apply effectsOf_seq_independent | apply effectsOf_when_independent | done].
  - repeat first [apply effectsOf_seq_independent | apply effectsOf_when_independent | done].
Qed.

(** The attributes that a pageload call sets, in order: those of the
    navigator, then [performance.timeOrigin] and
    [performance.activationStart], then the LCP and CLS debug attributes of
    the entries retained when the call starts.  Neither the drained entries
    nor the options change them. *)
Theorem pageload_attributes host span options entries s :
  available host entries →
  op span = Some "pageload" →
  attributesSetOf (effectsOf (addPerformanceEntries host span options s))
  = attributesSetOf (effectsOf (_trackNavigator host s))
    ++ [("performance.timeOrigin", ANum (timeOriginOf host));
        ("performance.activationStart", ANum (getActivationStart host))]
    ++ attributesSetOf (effectsOf (_setWebVitalAttributes s)).
Proof.
  intros Hav Hop.
  rewrite (effectsOf_addPerformanceEntries _ _ _ _ _ Hav), Hop.
  rewrite bool_decide_eq_true_2 by done.
  rewrite effectsOf_finalizePageload. rewrite !attributesSetOf_app.
  rewrite (attributesSetOf_none entrySpan (effectsOf (drainEntries _ _ _ _ _)));
    [|by intros []|apply emitsOnly_drainEntries].
  rewrite (effectsOf_trackNavigator host _ s).
  rewrite (attributesSetOf_none (λ e, isUiActionSpan e = true) (fidSpan _));
    [|by intros []|unfold fidSpan; repeat case_match; repeat constructor].
  rewrite (attributesSetOf_none (λ e, ∃ kv, e = writeMeasurement kv) (_ <$> _));
    [|by intros [] [[??] [=]]|apply Forall_fmap, Forall_forall; intros kv _; by exists kv].
  rewrite !run_setWebVitalAttributes. cbn [effectsOf fst snd app].
  assert (∀ ms s', _lcpEntry (set_measurements ms s') = _lcpEntry s'
                   ∧ _clsEntry (set_measurements ms s') = _clsEntry s') as Hset
    by (by intros ? []).
  destruct (Hset (writtenMeasurements host options
                    (_measurements (stateOf (_trackNavigator host
                                               (drained host span entries s)))))
              (stateOf (_trackNavigator host (drained host span entries s))))
    as [-> ->].
  assert (preserves _lcpEntry (_trackNavigator host)) as ->
    by (unfold _trackNavigator; keeps).
  assert (preserves _clsEntry (_trackNavigator host)) as ->
    by (unfold _trackNavigator; keeps).
  by rewrite lcpEntry_drained, clsEntry_drained.
Qed.

Lemma elem_of_attributesSetOf k v w :
  (k, v) ∈ attributesSetOf w ↔ SetAttribute k v ∈ w.
Proof.
  unfold attributesSetOf. rewrite list_elem_of_omap. split.
  - intros (e & He & Hkv). destruct e; try done. by injection Hkv as -> ->.
  - intros He. by exists (SetAttribute k v).
Qed.

Lemma omap_imap {A B C} (h : B → option C) (f : nat → A → B) (g : nat → A → C) l :
  (∀ i x, h (f i x) = Some (g i x)) → omap h (imap f l) = imap g l.
Proof.
  revert f g. induction l as [|x l IH]; intros f g Hfg; [done|].
  cbn. rewrite Hfg. f_equal. apply IH. intros i y. apply Hfg.
Qed.

Lemma length_slice_prefix n s : String.length (JS.slice_prefix n s) ≤ n.
Proof.
  unfold JS.slice_prefix. revert s.
  induction n as [|n IH]; intros [|c s]; cbn; try lia. specialize (IH s). lia.
Qed.

Lemma lcpTrace_attributes lcpEntry :
  Forall (λ kv, JS.startsWith kv.1 "lcp." = true) (attributesSetOf (lcpTrace lcpEntry)).
Proof.
  unfold lcpTrace. destruct lcpEntry as [lcp|]; [|constructor].
  rewrite !attributesSetOf_app, !Forall_app.
  repeat split; repeat case_match; repeat constructor.
Qed.

(** When a CLS entry with sources is retained, [_setWebVitalAttributes] sets
    one attribute per source after the LCP attributes: [cls.source.1] for the
    first source, [cls.source.2] for the second and so on, each holding the
    HTML path of the source's node. *)
Theorem cls_sources_numbered_from_one s cls srcs :
  _clsEntry s = Some cls →
  sources cls = Some srcs →
  ∃ lcpAttributes,
    attributesSetOf (effectsOf (_setWebVitalAttributes s))
    = lcpAttributes
      ++ imap (λ index source,
                 ("cls.source." +:+ pretty (index + 1)%nat, AStr (htmlTreeAsString source)))
           srcs
    ∧ Forall (λ kv, JS.startsWith kv.1 "lcp." = true) lcpAttributes.
Proof.
  intros Hcls Hsrcs. exists (attributesSetOf (lcpTrace (_lcpEntry s))).
  split; [|apply lcpTrace_attributes].
  rewrite run_setWebVitalAttributes. cbn [effectsOf fst snd].
  rewrite attributesSetOf_app. f_equal.
  unfold clsSourceTrace. rewrite Hcls, Hsrcs. by apply omap_imap.
Qed.

(** When an LCP entry is retained, [_setWebVitalAttributes] always sets
    [lcp.size]; it sets [lcp.url] only for a non-empty URL, to a string of at
    most 200 characters, and [lcp.id] only for a non-empty id, to the id
    itself. *)
Theorem lcp_debug_attributes s lcp :
  _lcpEntry s = Some lcp →
  let attributes := attributesSetOf (effectsOf (_setWebVitalAttributes s)) in
  ("lcp.size", ANum (lcp_size lcp)) ∈ attributes
  ∧ (∀ v, ("lcp.url", v) ∈ attributes →
       lcp_url lcp ≠ "" ∧ ∃ u, v = AStr u ∧ String.length u ≤ 200)
  ∧ (∀ v, ("lcp.id", v) ∈ attributes → lcp_id lcp ≠ "" ∧ v = AStr (lcp_id lcp)).
Proof.
  intros Hlcp attributes. subst attributes.
  rewrite run_setWebVitalAttributes. cbn [effectsOf fst snd]. rewrite Hlcp.
  assert (∀ k v, SetAttribute k v ∈ clsSourceTrace (_clsEntry s) →
            ∃ suffix, k = "cls.source." +:+ suffix) as Hsources.
  { intros k v Hin. unfold clsSourceTrace in Hin.
    destruct (_clsEntry s) as [cls|]; [|by apply elem_of_nil in Hin].
    destruct (sources cls) as [srcs|]; [|by apply elem_of_nil in Hin].
    apply elem_of_lookup_imap in Hin as (i & src & [= -> ->] & _). by eexists. }
  unfold lcpTrace. split; [|split].
  - apply elem_of_attributesSetOf. rewrite !elem_of_app. left. do 3 right.
    apply list_elem_of_singleton. done.
  - intros v Hin%elem_of_attributesSetOf.
    rewrite !elem_of_app in Hin. destruct Hin as [[Hin|[Hin|[Hin|Hin]]]|Hin].
    + case_match; not_listed Hin.
    + case_match; not_listed Hin.
    + destruct (String.eqb_spec (lcp_url lcp) "") as [|Hurl]; cbn [negb] in Hin;
        [by apply elem_of_nil in Hin|].
      apply list_elem_of_singleton in Hin. injection Hin as ->.
      split; [done|]. eexists. split; [done|]. apply length_slice_prefix.
    + not_listed Hin.
    + apply Hsources in Hin as [suffix Hk]. discriminate Hk.
  - intros v Hin%elem_of_attributesSetOf.
    rewrite !elem_of_app in Hin. destruct Hin as [[Hin|[Hin|[Hin|Hin]]]|Hin].
    + case_match; not_listed Hin.
    + destruct (String.eqb_spec (lcp_id lcp) "") as [|Hid]; cbn [negb] in Hin;
        [by apply elem_of_nil in Hin|].
      apply list_elem_of_singleton in Hin. by injection Hin as ->.
    + case_match; not_listed Hin.
    + not_listed Hin.
    + apply Hsources in Hin as [suffix Hk]. discriminate Hk.
Qed.

(** *** Draining the entries *)

Lemma forEach_invariant {A} (I : Session → Prop) (l : list A) (f : A → M unit) :
  (∀ x s, x ∈ l → I s → I (stateOf (f x s))) →
  ∀ s, I s → I (stateOf (forEach l f s)).
Proof.
  induction l as [|x l IH]; intros Hf s Hs; cbn [forEach]; [done|].
  rewrite stateOf_bind. apply IH.
  - intros y s' Hy. apply Hf, elem_of_cons. by right.
  - apply Hf; [|done]. apply elem_of_cons. by left.
Qed.

Lemma preserves_processEntry_resource host entry timeOrigin :
  preserves (λ s, s)
    (_addResourceSpans host entry (name entry) (msToSec (startTime entry))
       (msToSec (JS.Math_max 0 (duration entry))) timeOrigin).
Proof. unfold _addResourceSpans. keeps. Qed.

Lemma stateOf_processEntry host span timeOrigin entry s :
  stateOf (processEntry host span timeOrigin entry s) = s
  ∨ ∃ k paintName,
      (k, paintName) ∈ paintMeasurements
      ∧ name entry = paintName
      ∧ (startTime entry <? firstHiddenTime host)%float = true
      ∧ stateOf (processEntry host span timeOrigin entry s)
        = stateOf (setMeasurementEntry k
                     {| value := startTime entry; unit_ := "millisecond" |} s).
Proof.
  unfold processEntry.
  destruct (_ && _ && _); [by left|].
  destruct (bool_decide (entryType entry = "navigation")).
  { left. apply (preserves_bind (λ s, s)).
    - unfold _addNavigationSpans, _addPerformanceNavigationTiming. keeps.
    - intros. unfold _addNavigationSpans, _addPerformanceNavigationTiming, _addRequest.
      keeps. }
  destruct (_ || _ || _).
  - rewrite stateOf_bind.
    assert (stateOf (_addMeasureSpans host entry (msToSec (startTime entry))
                       (msToSec (JS.Math_max 0 (duration entry))) timeOrigin s) = s) as ->
      by reflexivity.
    rewrite stateOf_bind, !run_when.
    destruct (startTime entry <? firstHiddenTime host)%float eqn:Hvisible;
      [|rewrite !andb_false_r; by left].
    rewrite !andb_true_r.
    destruct (decide (name entry = "first-paint")) as [Hfp|Hfp].
    + rewrite (bool_decide_eq_true_2 _ Hfp).
      rewrite bool_decide_eq_false_2 by (rewrite Hfp; discriminate).
      right. exists "fp", "first-paint".
      split; [apply list_elem_of_In; cbn; tauto|]. done.
    + rewrite (bool_decide_eq_false_2 _ Hfp).
      destruct (decide (name entry = "first-contentful-paint")) as [Hfcp|Hfcp].
      * rewrite (bool_decide_eq_true_2 _ Hfcp).
        right. exists "fcp", "first-contentful-paint".
        split; [apply list_elem_of_In; cbn; tauto|]. done.
      * rewrite (bool_decide_eq_false_2 _ Hfcp). by left.
  - destruct (bool_decide (entryType entry = "resource")); [|by left].
    left. apply (preserves_processEntry_resource host entry timeOrigin).
Qed.

(** A paint measurement held once the entries are drained was either held
    before, or is the start time, in milliseconds, of an entry of the log
    that bears the paint's name and started before the page was first
    hidden. *)
Theorem paint_recorded_only_while_visible host span entries s k paintName m :
  (k, paintName) ∈ paintMeasurements →
  _measurements (drained host span entries s) !! k = Some m →
  _measurements s !! k = Some m
  ∨ ∃ entry, entry ∈ entries
      ∧ name entry = paintName
      ∧ (startTime entry <? firstHiddenTime host)%float = true
      ∧ m = {| value := startTime entry; unit_ := "millisecond" |}.
Proof.
  intros Hk. unfold drained, drainEntries.
  rewrite stateOf_bind. cbn [gets valueOf stateOf fst snd].
  rewrite stateOf_bind. cbn [modify stateOf fst snd set_performanceCursor _measurements].
  revert m.
  apply (forEach_invariant
           (λ s', ∀ m, _measurements s' !! k = Some m →
                    _measurements s !! k = Some m
                    ∨ ∃ entry, entry ∈ entries ∧ name entry = paintName
                        ∧ (startTime entry <? firstHiddenTime host)%float = true
                        ∧ m = {| value := startTime entry; unit_ := "millisecond" |}));
    [|by left].
  intros entry s' Hentry IH m.
  destruct (stateOf_processEntry host span (timeOriginOf host) entry s')
    as [->|(k' & paintName' & Hk' & Hname & Hvisible & ->)]; [apply IH|].
  cbn [setMeasurementEntry modify stateOf fst snd set_measurements _measurements].
  destruct (decide (k = k')) as [<-|Hne].
  - rewrite lookup_insert_eq. intros [= <-]. right. exists entry.
    split; [by eapply subseteq_drop|]. split; [|done].
    apply list_elem_of_In in Hk, Hk'. cbn in Hk, Hk'.
    destruct Hk as [[= <- <-]|[[= <- <-]|[]]];
      destruct Hk' as [[= <-]|[[= <-]|[]]]; done.
  - rewrite lookup_insert_ne by done. apply IH.
Qed.

Lemma forEach_processEntry_skipped host span timeOrigin t l s :
  op span = Some "navigation" →
  start_timestamp span = Some t →
  JS.truthy t = true →
  Forall (λ entry, (timeOrigin + msToSec (startTime entry) <? t)%float = true) l →
  forEach l (processEntry host span timeOrigin) s = (tt, s, []).
Proof.
  intros Hop Hstart Ht Hl. induction Hl as [|entry l Hentry _ IH]; [done|].
  cbn [forEach]. rewrite run_bind.
  assert (processEntry host span timeOrigin entry s = (tt, s, [])) as ->.
  { unfold processEntry. rewrite Hop, Hstart.
    change (JS.toNumber (Some t)) with t. change (JS.truthy_opt (Some t)) with (JS.truthy t).
    by rewrite bool_decide_eq_true_2, Ht, Hentry. }
  cbn [valueOf stateOf effectsOf fst snd]. by rewrite IH.
Qed.

(** On a navigation span with a start time, a log whose entries all started
    before the span gives no span and no measurement; only the cursor
    moves, to the last entry. *)
Theorem navigation_span_skips_earlier_entries host span timeOrigin entries s t :
  op span = Some "navigation" →
  start_timestamp span = Some t →
  JS.truthy t = true →
  Forall (λ entry, (timeOrigin + msToSec (startTime entry) <? t)%float = true) entries →
  drainEntries host span timeOrigin entries s
  = (tt, set_performanceCursor (Z.max (Z.of_nat (length entries) - 1) 0) s, []).
Proof.
  intros Hop Hstart Ht Hentries. unfold drainEntries.
  rewrite run_bind. cbn [gets valueOf stateOf effectsOf fst snd app].
  rewrite run_bind.
  rewrite (forEach_processEntry_skipped _ _ _ t) by (try done; by apply Forall_drop).
  done.
Qed.


(** *** What [_trackNavigator] does *)

Lemma attributeKeys_seq (m1 m2 : M unit) l1 l2 :
  (∀ s, (attributesSetOf (effectsOf (m1 s))).*1 `sublist_of` l1) →
  (∀ s, (attributesSetOf (effectsOf (m2 s))).*1 `sublist_of` l2) →
  ∀ s, (attributesSetOf (effectsOf ((m1 ;; m2) s))).*1 `sublist_of` l1 ++ l2.
Proof.
  intros H1 H2 s. rewrite effectsOf_bind, attributesSetOf_app, fmap_app.
  by apply sublist_app.
Qed.

Lemma attributeKeys_when_setAttribute (b : bool) k v s :
  (attributesSetOf (effectsOf (when b (setAttribute k v) s))).*1 `sublist_of` [k].
Proof. destruct b; [done|]. apply sublist_nil_l. Qed.

Lemma attributeKeys_when_setMeasurementEntry (b : bool) k m s :
  (attributesSetOf (effectsOf (when b (setMeasurementEntry k m) s))).*1 `sublist_of` [].
Proof. by destruct b. Qed.

(** [_trackNavigator] makes no call on the tracing layer other than setting
    attributes, and those are, each at most once and in this order,
    [effectiveConnectionType], [connectionType], [deviceMemory] and
    [hardwareConcurrency].  Of the session it changes nothing but the
    [connection.rtt] key of the accumulator. *)
Theorem navigator_tracking_frame host s :
  let r := _trackNavigator host s in
  Forall navigatorAttribute (effectsOf r)
  ∧ (attributesSetOf (effectsOf r)).*1
    `sublist_of` ["effectiveConnectionType"; "connectionType"; "deviceMemory";
                  "hardwareConcurrency"]
  ∧ (∀ k, k ≠ "connection.rtt" →
       _measurements (stateOf r) !! k = _measurements s !! k)
  ∧ _lcpEntry (stateOf r) = _lcpEntry s
  ∧ _clsEntry (stateOf r) = _clsEntry s
  ∧ _performanceCursor (stateOf r) = _performanceCursor s.
Proof.
  intros r. subst r. split; [apply emitsOnly_trackNavigator|]. split.
  - revert s. unfold _trackNavigator.
    destruct (navigator host) as [nav|]; [|intros s; apply sublist_nil_l].
    apply (attributeKeys_seq _ _ ["effectiveConnectionType"; "connectionType"]
             ["deviceMemory"; "hardwareConcurrency"]).
    + destruct (connection nav) as [conn|]; [|intros s; apply sublist_nil_l].
      apply (attributeKeys_seq _ _ ["effectiveConnectionType"] ["connectionType"]);
        [intros s; apply attributeKeys_when_setAttribute|].
      apply (attributeKeys_seq _ _ ["connectionType"] []);
        [intros s; apply attributeKeys_when_setAttribute|].
      intros s. apply attributeKeys_when_setMeasurementEntry.
    + apply (attributeKeys_seq _ _ ["deviceMemory"] ["hardwareConcurrency"]);
        intros s; apply attributeKeys_when_setAttribute.
  - split.
    { intros k Hk. by rewrite measurements_trackNavigator, lookup_withConnectionRtt_ne. }
    assert (preserves _lcpEntry (_trackNavigator host)) as Hlcp
      by (unfold _trackNavigator; keeps).
    assert (preserves _clsEntry (_trackNavigator host)) as Hcls
      by (unfold _trackNavigator; keeps).
    assert (preserves _performanceCursor (_trackNavigator host)) as Hcursor
      by (unfold _trackNavigator; keeps).
    split; [apply Hlcp|]. split; [apply Hcls|apply Hcursor].
Qed.

(** *** Entries of other types *)

Lemma forEach_processEntry_ignored host span timeOrigin l s :
  Forall (λ entry, entryType entry ∉ ["navigation"; "mark"; "paint"; "measure"; "resource"])
    l →
  forEach l (processEntry host span timeOrigin) s = (tt, s, []).
Proof.
  intros Hl. induction Hl as [|entry l Hentry _ IH]; [done|].
  cbn [forEach]. rewrite run_bind.
  assert (processEntry host span timeOrigin entry s = (tt, s, [])) as ->.
  { assert (∀ t, t ∈ ["navigation"; "mark"; "paint"; "measure"; "resource"] →
              bool_decide (entryType entry = t) = false) as Hno.
    { intros t Ht. apply bool_decide_eq_false_2. intros Htype. apply Hentry.
      by rewrite Htype. }
    unfold processEntry. destruct (_ && _ && _); [done|].
    by rewrite !Hno by (apply list_elem_of_In; cbn; tauto). }
  cbn [valueOf stateOf effectsOf fst snd]. by rewrite IH.
Qed.

(** Entries of a type other than [navigation], [mark], [paint], [measure]
    and [resource] are ignored: a log of such entries gives no span and no
    measurement, and only moves the cursor to its last entry. *)
Theorem other_entry_types_are_ignored host span timeOrigin entries s :
  Forall (λ entry, entryType entry ∉ ["navigation"; "mark"; "paint"; "measure"; "resource"])
    entries →
  drainEntries host span timeOrigin entries s
  = (tt, set_performanceCursor (Z.max (Z.of_nat (length entries) - 1) 0) s, []).
Proof.
  intros Hentries. unfold drainEntries.
  rewrite run_bind. cbn [gets valueOf stateOf effectsOf fst snd app].
  rewrite run_bind.
  rewrite forEach_processEntry_ignored by (by apply Forall_drop).
  done.
Qed.

End Properties.

(** * The properties at concrete inputs *)

Section Witnesses.
#[local] Existing Instance stubCollaborators.

(** C1, at the failing input.  With a log of the navigation entry and one
    script resource, the cursor is 1 after the first call, so the second call
    has the slice [[scriptEntry]] and creates the span of that entry a second
    time. *)
Theorem drain_twice_reprocesses_last_entry :
  let host := hostWith [scriptEntry] in
  let r1 := addPerformanceEntries host pageloadSpan clsOnPageload initialSession in
  let r2 := addPerformanceEntries host pageloadSpan clsOnPageload (stateOf r1) in
  JS.slice (pageLog [scriptEntry]) (_performanceCursor (stateOf r1)) = [scriptEntry]
  ∧ spansOf (effectsOf r1) =
      [(1002, 1003, "https://example.com/", "browser.request")%float;
       (1002.5, 1003, "https://example.com/", "browser.response")%float;
       (1000.12, 1000.15, "/app.js", "resource.script")%float]
  ∧ spansOf (effectsOf r2) = [(1000.12, 1000.15, "/app.js", "resource.script")%float].
Proof. vm_compute. done. Qed.

(** C4, at the failing input.  A measure entry with duration -5 ms that starts
    at 1000 ms, before the navigation's [requestStart] of 2000 ms, yields a
    span from 1002 s to 1001 s: its duration is -1 s. *)
Theorem pinned_measure_has_negative_duration :
  let w := effectsOf (addPerformanceEntries (hostWith [hydrationMeasure]) pageloadSpan
                        clsOnPageload initialSession) in
  spansOf w =
    [(1002, 1003, "https://example.com/", "browser.request")%float;
     (1002.5, 1003, "https://example.com/", "browser.response")%float;
     (1002, 1001, "Next.js-before-hydration", "measure")%float]
  ∧ (1001 - 1002)%float = (-1)%float.
Proof. vm_compute. done. Qed.

(** C2, counterexample.  The log ends with a fetch resource, so the second call
    creates no span; it still writes the [ttfb.requestTime] measurement. *)
Lemma second_finalize_writes_ttfb_request_time :
  let host := hostWith [scriptEntry; fetchEntry] in
  let s1 := stateOf (addPerformanceEntries host pageloadSpan clsOnPageload initialSession) in
  let w2 := effectsOf (addPerformanceEntries host pageloadSpan clsOnPageload s1) in
  spansOf w2 = []
  ∧ measurementsOf w2 = [("ttfb.requestTime", 500%float, "millisecond")].
Proof. vm_compute. done. Qed.

(** C5, counterexample.  With a log of three entries the cursor is 2 after the
    call, not the initial 0. *)
Lemma session_reset_leaves_cursor_advanced :
  let s := stateOf (addPerformanceEntries (hostWith [scriptEntry; fetchEntry]) pageloadSpan
                      clsOnPageload initialSession) in
  _performanceCursor s = 2%Z ∧ _performanceCursor s ≠ _performanceCursor initialSession.
Proof. vm_compute. split; [done|discriminate]. Qed.

(** C3, counterexample.  First, a measure that starts at 1000 ms, before the
    [requestStart] of 2000 ms: its span starts at the pinned 1002 s, and
    [sentry.browser.measure_start_time] holds that pinned start, while the raw
    start is 1001 s.  Second, with a time origin of 1.7e9 s, a measure that
    starts at 0 ms and a [requestStart] of 0.0001 ms, the pinned and the raw
    start are the same number, and the span carries no flag. *)
Lemma measure_start_time_is_the_pinned_value :
  (let w := effectsOf (addPerformanceEntries (hostWith [earlyMeasure]) pageloadSpan
                         clsOnPageload initialSession) in
   (startTime earlyMeasure <? 2000)%float = true
   ∧ spansOf w =
       [(1002, 1003, "https://example.com/", "browser.request")%float;
        (1002.5, 1003, "https://example.com/", "browser.response")%float;
        (1002, 1001.5, "Next.js-before-hydration", "measure")%float]
   ∧ spanAttributesOf "sentry.browser.measure_start_time" w = [None; None; Some (ANum 1002)]
   ∧ (1000 + msToSec (startTime earlyMeasure))%float = 1001%float)
  ∧ (let w := effectsOf (addPerformanceEntries (earlyRequestHost [originMeasure]) pageloadSpan
                           clsOnPageload initialSession) in
     (startTime originMeasure <? 0.0001)%float = true
     ∧ spansOf w
       = [(1700000000, 1700000000.5, "Next.js-before-hydration", "measure")%float]
     ∧ spanAttributesOf "sentry.browser.measure_happened_before_request" w = [None]).
Proof. vm_compute. done. Qed.

(** C3, witness. *)
Lemma measure_start_pinned_witness :
  (1 <? requestTimeOf (hostWith []))%float = true
  ∧ ∃ attributes,
      _addMeasureSpans (hostWith []) earlyMeasure 1 0.5 1000 initialSession =
        (1002%float, initialSession,
         [StartAndEndSpan 1002 1001.5
            {| span_name := "Next.js-before-hydration"; span_op := "measure";
               span_attributes := attributes |}])
      ∧ (JS.strict_neq 1002 1001 = true →
         attributes !! "sentry.browser.measure_happened_before_request" = Some (ABool true)
         ∧ attributes !! "sentry.browser.measure_start_time" = Some (ANum 1002)).
Proof.
  split; [reflexivity|].
  exact (measure_start_pinned (hostWith []) earlyMeasure 1 0.5 1000 initialSession
           eq_refl).
Defined.

(** C5, witness. *)
Lemma session_reset_keeps_cursor_witness :
  available (hostWith [scriptEntry; fetchEntry]) (pageLog [scriptEntry; fetchEntry])
  ∧ stateOf (addPerformanceEntries (hostWith [scriptEntry; fetchEntry]) pageloadSpan
               clsOnPageload clsSession) =
    {| _performanceCursor := 2; _measurements := ∅;
       _lcpEntry := None; _clsEntry := None |}.
Proof.
  assert (available (hostWith [scriptEntry; fetchEntry]) (pageLog [scriptEntry; fetchEntry]))
    as Hav
    by (split; reflexivity).
  split; [exact Hav|].
  exact (session_reset_keeps_cursor _ pageloadSpan clsOnPageload _ clsSession Hav).
Defined.

(** C6, witness: the CLS report is in the accumulator and is not written. *)
Lemma cls_gating_witness :
  _measurements clsSession !! "cls" = Some {| value := 0.25%float; unit_ := "" |}
  ∧ ∀ v u, SetMeasurement "cls" v u
           ∉ effectsOf (addPerformanceEntries (hostWith [scriptEntry]) pageloadSpan
                          clsOnPageload clsSession).
Proof.
  split; [vm_compute; reflexivity|].
  apply (cls_gating (hostWith [scriptEntry]) pageloadSpan clsOnPageload (pageLog [scriptEntry])
           clsSession).
  - split; reflexivity.
  - reflexivity.
  - left. vm_compute. reflexivity.
Defined.

(** C7, witness: [mark.fid] of 10.0 s and [fid] of 50 ms give the span from
    10.0 s to 10.05 s. *)
Lemma fid_derived_span_witness :
  let w := effectsOf (addPerformanceEntries (hostWith [scriptEntry]) pageloadSpan
                        clsOnPageload fidSession) in
  List.filter isUiActionSpan w =
    [StartAndEndSpan 10 10.05
       {| span_name := "first input delay"; span_op := "ui.action";
          span_attributes :=
            {[ SEMANTIC_ATTRIBUTE_SENTRY_ORIGIN := AStr "auto.ui.browser.metrics" ]} |}]
  ∧ ∀ v u, SetMeasurement "mark.fid" v u ∉ w.
Proof.
  apply (fid_derived_span (hostWith [scriptEntry]) pageloadSpan clsOnPageload
           (pageLog [scriptEntry]) fidSession {| value := 50%float; unit_ := "millisecond" |}
           {| value := 10%float; unit_ := "second" |}).
  - split; reflexivity.
  - reflexivity.
  - vm_compute. reflexivity.
  - vm_compute. reflexivity.
Defined.

(** C8, witness. *)
Lemma fetch_xhr_suppressed_witness :
  _addResourceSpans (hostWith [fetchEntry]) fetchEntry "https://example.com/api/items"
    0.3 0.045 1000 initialSession = (tt, initialSession, []).
Proof.
  apply fetch_xhr_suppressed. left. vm_compute. reflexivity.
Defined.



(** C2, witness. *)
Lemma second_finalize_writes_only_recomputed_witness :
  let host := hostWith [scriptEntry; fetchEntry] in
  let s1 := stateOf (addPerformanceEntries host pageloadSpan clsOnPageload fidSession) in
  let w2 := effectsOf (addPerformanceEntries host pageloadSpan clsOnPageload s1) in
  (∀ k v u, SetMeasurement k v u ∈ w2 →
     k ∈ ["fp"; "fcp"; "connection.rtt"; "ttfb.requestTime"])
  ∧ List.filter isUiActionSpan w2 = []
  ∧ (∀ k v, SetAttribute k v ∈ w2 →
       JS.startsWith k "lcp." || JS.startsWith k "cls.source." = false).
Proof.
  apply (second_finalize_writes_only_recomputed (hostWith [scriptEntry; fetchEntry])
           pageloadSpan clsOnPageload (pageLog [scriptEntry; fetchEntry]) fidSession).
  split; reflexivity.
Defined.

(** The cursor after a call on a log of three entries. *)
Lemma cursor_points_at_last_entry_witness :
  JS.slice (pageLog [scriptEntry; fetchEntry])
    (_performanceCursor
       (stateOf (addPerformanceEntries (hostWith [scriptEntry; fetchEntry]) pageloadSpan
                   clsOnPageload initialSession)))
  = [fetchEntry].
Proof.
  apply (cursor_points_at_last_entry (hostWith [scriptEntry; fetchEntry]) pageloadSpan
           clsOnPageload (pageLog [scriptEntry; fetchEntry]) initialSession).
  split; reflexivity.
Defined.

(** A script resource reported with a duration of -30 ms. *)
Lemma resource_negative_duration_zero_witness :
  let entry :=
    {| entryType := "resource"; name := "https://example.com/app.js";
       startTime := 120%float; duration := (-30)%float; numProps := ∅;
       strProps := {[ "initiatorType" := "script" ]} |} in
  spansOf (effectsOf (processEntry (hostWith [entry]) pageloadSpan 1000 entry initialSession))
  = [(1000.12, 1000.12, "/app.js", "resource.script")%float]
  ∧ ∀ a b ctx,
      StartAndEndSpan a b ctx
      ∈ effectsOf (processEntry (hostWith [entry]) pageloadSpan 1000 entry initialSession) →
      a = 1000.12%float ∧ b = 1000.12%float
      ∧ (is_finite 1000.12 = true → (b - a)%float = 0%float).
Proof.
  intros entry. split; [vm_compute; reflexivity|].
  apply (resource_negative_duration_zero (hostWith [entry]) pageloadSpan 1000 entry
           initialSession); reflexivity.
Defined.

(** A measure of duration -5 ms that starts 3 s after the time origin, with
    [requestStart] at 2 s. *)
Lemma unpinned_measure_negative_duration_zero_witness :
  spansOf (effectsOf (processEntry (hostWith [lateMeasure]) pageloadSpan 1000 lateMeasure
                        initialSession))
  = [(1003, 1003, "Next.js-before-hydration", "measure")%float]
  ∧ ∀ a b ctx,
      StartAndEndSpan a b ctx
      ∈ effectsOf (processEntry (hostWith [lateMeasure]) pageloadSpan 1000 lateMeasure
                     initialSession) →
      a = 1003%float ∧ b = 1003%float
      ∧ (is_finite 1003 = true → (b - a)%float = 0%float).
Proof.
  split; [vm_compute; reflexivity|].
  apply (unpinned_measure_negative_duration_zero (hostWith [lateMeasure]) pageloadSpan 1000
           lateMeasure initialSession); reflexivity.
Defined.

(** A click on a button, 5 s after the time origin, handled in 16 ms. *)
Lemma interaction_handler_click_span_witness :
  ∃ spanOptions,
    span_name spanOptions = "button#buy"
    ∧ span_op spanOptions = "ui.interaction.click"
    ∧ interactionHandler (hostWith []) (Some pageloadSpan)
        [ {| event_name := "click"; event_startTime := 5000%float;
             event_duration := 16%float; event_target := Some "button#buy" |} ]
        initialSession =
        (tt, initialSession,
         [StartInactiveSpan spanOptions 1005; SpanEnd spanOptions 1005.016]).
Proof.
  exact (interaction_handler_click_span (hostWith []) pageloadSpan
           {| event_name := "click"; event_startTime := 5000%float;
              event_duration := 16%float; event_target := Some "button#buy" |}
           initialSession eq_refl).
Defined.

(** *** Witnesses of the further properties *)

Lemma reportedSession_reachable : reachable reportedSession.
Proof.
  unfold reportedSession.
  apply reachable_ttfb, reachable_fid, reachable_lcp, reachable_cls, reachable_initial.
Qed.

Lemma absent_capability_is_noop_witness :
  addPerformanceEntries legacyHost pageloadSpan clsOnPageload reportedSession
  = (tt, reportedSession, []).
Proof. apply absent_capability_is_noop. left. reflexivity. Defined.

Lemma reachable_consistent_witness : consistent reportedSession.
Proof. apply reachable_consistent. exact reportedSession_reachable. Defined.

Lemma written_measurement_names_witness :
  let w := effectsOf (addPerformanceEntries (hostWith [firstContentfulPaint]) pageloadSpan
                        clsOnPageload reportedSession) in
  SetMeasurement "lcp" 2400 "millisecond" ∈ w
  ∧ "lcp" ∈ ["cls"; "lcp"; "fid"; "ttfb"; "fp"; "fcp"; "connection.rtt";
             "ttfb.requestTime"].
Proof.
  assert (SetMeasurement "lcp" 2400 "millisecond"
          ∈ effectsOf (addPerformanceEntries (hostWith [firstContentfulPaint]) pageloadSpan
                         clsOnPageload reportedSession)) as Hin.
  { apply list_elem_of_In. vm_compute. tauto. }
  split; [exact Hin|].
  exact (written_measurement_names (hostWith [firstContentfulPaint]) pageloadSpan
           clsOnPageload reportedSession "lcp" 2400 "millisecond"
           reportedSession_reachable Hin).
Defined.

Lemma fid_span_with_fid_measurement_witness :
  let w := effectsOf (addPerformanceEntries (hostWith [firstContentfulPaint]) pageloadSpan
                        clsOnPageload reportedSession) in
  (∃ v u, SetMeasurement "fid" v u ∈ w) ↔ List.filter isUiActionSpan w ≠ [].
Proof.
  apply (fid_span_with_fid_measurement (hostWith [firstContentfulPaint]) pageloadSpan
           clsOnPageload (pageLog [firstContentfulPaint]) reportedSession).
  - exact reportedSession_reachable.
  - split; reflexivity.
  - reflexivity.
Defined.

Lemma resource_span_attributes_witness :
  ∃ ctx,
    _addResourceSpans (hostWith [imageEntry]) imageEntry "https://example.com/hero.png"
      0.4 0.08 1000 initialSession
    = (tt, initialSession, [StartAndEndSpan 1000.4 (1000.4 + 0.08)%float ctx])
    ∧ span_attributes ctx !! "http.response_transfer_size" = Some (ANum 2048)
    ∧ span_attributes ctx !! "http.response_content_length" = None
    ∧ span_attributes ctx !! "http.decoded_response_content_length" = None
    ∧ span_attributes ctx !! "http.response_delivery_type" = Some (AStr "default")
    ∧ span_op ctx = "resource.img".
Proof.
  destruct (resource_span_attributes (hostWith [imageEntry]) imageEntry
              "https://example.com/hero.png" 0.4 0.08 1000 initialSession)
    as (ctx & Hrun & _ & _ & Hsizes & Hdelivery & Hop).
  - vm_compute. discriminate.
  - vm_compute. discriminate.
  - exists ctx. split; [exact Hrun|].
    split; [apply (Hsizes "transferSize"); apply list_elem_of_In; cbn; tauto|].
    split; [apply (Hsizes "encodedBodySize"); apply list_elem_of_In; cbn; tauto|].
    split; [apply (Hsizes "decodedBodySize"); apply list_elem_of_In; cbn; tauto|].
    split; [exact Hdelivery|exact Hop].
Defined.

Lemma accumulated_measurements_are_written_witness :
  SetMeasurement "lcp" 2400 "millisecond"
  ∈ effectsOf (addPerformanceEntries (hostWith [firstContentfulPaint]) pageloadSpan
                 clsOnPageload reportedSession).
Proof.
  apply (accumulated_measurements_are_written (hostWith [firstContentfulPaint]) pageloadSpan
           clsOnPageload (pageLog [firstContentfulPaint]) reportedSession "lcp"
           {| value := 2400%float; unit_ := "millisecond" |}).
  - split; reflexivity.
  - reflexivity.
  - intros Hin%list_elem_of_In. cbn in Hin. intuition discriminate.
  - discriminate.
  - vm_compute. reflexivity.
Defined.


Lemma fid_report_becomes_span_witness :
  let w := effectsOf (addPerformanceEntries (hostWith []) pageloadSpan clsOnPageload
                        (stateOf (_trackFID (hostWith [])
                                    {| metric_value := 50%float;
                                       metric_entries := [firstInput] |}
                                    initialSession))) in
  List.filter isUiActionSpan w
  = [StartAndEndSpan 1009 1009.05
       {| span_name := "first input delay"; span_op := "ui.action";
          span_attributes :=
            {[ SEMANTIC_ATTRIBUTE_SENTRY_ORIGIN := AStr "auto.ui.browser.metrics" ]} |}]
  ∧ SetMeasurement "fid" 50 "millisecond" ∈ w
  ∧ ∀ v u, SetMeasurement "mark.fid" v u ∉ w.
Proof.
  apply (fid_report_becomes_span (hostWith []) pageloadSpan clsOnPageload (pageLog [])
           initialSession {| metric_value := 50%float; metric_entries := [firstInput] |}
           firstInput).
  - split; reflexivity.
  - reflexivity.
  - reflexivity.
Defined.

Lemma pageload_attributes_witness :
  attributesSetOf (effectsOf (addPerformanceEntries (mobileHostWith [firstContentfulPaint])
                                pageloadSpan clsOnPageload reportedSession))
  = attributesSetOf (effectsOf (_trackNavigator (mobileHostWith [firstContentfulPaint])
                                  reportedSession))
    ++ [("performance.timeOrigin", ANum 1000); ("performance.activationStart", ANum 0)]
    ++ attributesSetOf (effectsOf (_setWebVitalAttributes reportedSession)).
Proof.
  apply (pageload_attributes (mobileHostWith [firstContentfulPaint]) pageloadSpan
           clsOnPageload (pageLog [firstContentfulPaint]) reportedSession).
  - split; reflexivity.
  - reflexivity.
Defined.

Lemma cls_sources_numbered_from_one_witness :
  ∃ lcpAttributes,
    attributesSetOf (effectsOf (_setWebVitalAttributes reportedSession))
    = lcpAttributes ++ [("cls.source.1", AStr "div#banner"); ("cls.source.2", AStr "")]
    ∧ Forall (λ kv, JS.startsWith kv.1 "lcp." = true) lcpAttributes.
Proof.
  apply (cls_sources_numbered_from_one reportedSession bannerShift bannerSources).
  - reflexivity.
  - reflexivity.
Defined.

Lemma lcp_debug_attributes_witness :
  let attributes := attributesSetOf (effectsOf (_setWebVitalAttributes reportedSession)) in
  ("lcp.size", ANum 120000) ∈ attributes
  ∧ (∀ v, ("lcp.url", v) ∈ attributes →
       "https://example.com/hero.png" ≠ "" ∧ ∃ u, v = AStr u ∧ String.length u ≤ 200)
  ∧ (∀ v, ("lcp.id", v) ∈ attributes → "" ≠ "" ∧ v = AStr "").
Proof.
  apply (lcp_debug_attributes reportedSession heroPaint).
  reflexivity.
Defined.

Lemma paint_recorded_only_while_visible_witness :
  _measurements (drained (hostWith [firstContentfulPaint]) pageloadSpan
                   (pageLog [firstContentfulPaint]) reportedSession) !! "fcp"
  = Some {| value := 800%float; unit_ := "millisecond" |}
  ∧ (_measurements reportedSession !! "fcp"
     = Some {| value := 800%float; unit_ := "millisecond" |}
     ∨ ∃ entry, entry ∈ pageLog [firstContentfulPaint]
         ∧ name entry = "first-contentful-paint"
         ∧ (startTime entry <? firstHiddenTime (hostWith [firstContentfulPaint]))%float = true
         ∧ {| value := 800%float; unit_ := "millisecond" |}
           = {| value := startTime entry; unit_ := "millisecond" |}).
Proof.
  assert (_measurements (drained (hostWith [firstContentfulPaint]) pageloadSpan
                           (pageLog [firstContentfulPaint]) reportedSession) !! "fcp"
          = Some {| value := 800%float; unit_ := "millisecond" |}) as Hfcp
    by (vm_compute; reflexivity).
  split; [exact Hfcp|].
  apply (paint_recorded_only_while_visible (hostWith [firstContentfulPaint]) pageloadSpan
           (pageLog [firstContentfulPaint]) reportedSession "fcp" "first-contentful-paint"
           {| value := 800%float; unit_ := "millisecond" |}).
  - apply list_elem_of_In. cbn. tauto.
  - exact Hfcp.
Defined.

Lemma navigation_span_skips_earlier_entries_witness :
  drainEntries (hostWith [scriptEntry]) laterNavigationSpan 1000 (pageLog [scriptEntry])
    initialSession
  = (tt, set_performanceCursor 1 initialSession, []).
Proof.
  apply (navigation_span_skips_earlier_entries (hostWith [scriptEntry]) laterNavigationSpan
           1000 (pageLog [scriptEntry]) initialSession 1010).
  - reflexivity.
  - reflexivity.
  - vm_compute. reflexivity.
  - repeat (constructor; [vm_compute; reflexivity|]). constructor.
Defined.

Lemma unfinished_response_has_no_request_span_witness :
  length (effectsOf (_addNavigationSpans (navigationEntryAt 0.0001 20 0) 1700000000
                       initialSession)) ≤ 8
  ∧ Forall (λ e, match e with
                 | StartAndEndSpan _ _ ctx =>
                     span_op ctx ≠ "browser.request" ∧ span_op ctx ≠ "browser.response"
                 | _ => False
                 end)
      (effectsOf (_addNavigationSpans (navigationEntryAt 0.0001 20 0) 1700000000
                    initialSession)).
Proof.
  apply (unfinished_response_has_no_request_span (navigationEntryAt 0.0001 20 0) 1700000000
           initialSession).
  vm_compute. reflexivity.
Defined.

Lemma other_entry_types_are_ignored_witness :
  drainEntries (hostWith []) pageloadSpan 1000 [firstInput; firstInput] initialSession
  = (tt, set_performanceCursor 1 initialSession, []).
Proof.
  apply (other_entry_types_are_ignored (hostWith []) pageloadSpan 1000
           [firstInput; firstInput] initialSession).
  repeat (constructor;
          [intros Hin%list_elem_of_In; cbn in Hin; intuition discriminate|]).
  constructor.
Defined.

End Witnesses.
